(** * checkSupport: the checklist-structure inference engine of
      [checksupport/fill_checklist.py], embedded in Rocq.

    Python [str] values are modelled by [string]: every [ascii] stands for
    the code point of the same number, so the development covers the texts
    whose code points lie below 256.  On that range the character classes
    ([str.isspace], [str.lower], the cased characters) are the ones CPython
    uses.  Calls to the logger are not modelled: they have no effect on any
    returned value. *)

From Stdlib Require Import String Ascii List Bool Arith NArith ZArith Lia.
From Stdlib Require QArith_base.
Import ListNotations.
Local Open Scope list_scope.
Local Open Scope string_scope.

(** ** Python string primitives *)

Module PyStr.

Definition code (c : ascii) : N := N_of_ascii c.

Definition between (lo hi : N) (c : ascii) : bool :=
  (N.leb lo (code c) && N.leb (code c) hi)%bool.

(** [Py_UNICODE_ISSPACE]: TAB..CR, FS..US, SPACE, NEL and NBSP. *)
Definition isspace (c : ascii) : bool :=
  between 9 13 c || between 28 32 c
  || N.eqb (code c) 133 || N.eqb (code c) 160.

(** Characters with the Unicode property Uppercase below 256. *)
Definition char_isupper (c : ascii) : bool :=
  between 65 90 c || between 192 214 c || between 216 222 c.

(** Characters with the Unicode property Lowercase below 256. *)
Definition char_islower (c : ascii) : bool :=
  between 97 122 c || N.eqb (code c) 170 || N.eqb (code c) 181
  || N.eqb (code c) 186 || between 223 246 c || between 248 255 c.

Definition char_lower (c : ascii) : ascii :=
  if char_isupper c then ascii_of_N (code c + 32) else c.

(** [s.lower()] *)
Fixpoint lower (s : string) : string :=
  match s with
  | EmptyString => EmptyString
  | String c s' => String (char_lower c) (lower s')
  end.

Definition is_empty (s : string) : bool :=
  match s with EmptyString => true | _ => false end.

(** [s.lstrip()], [s.rstrip()], [s.strip()] *)
Fixpoint lstrip (s : string) : string :=
  match s with
  | EmptyString => EmptyString
  | String c s' => if isspace c then lstrip s' else s
  end.

Fixpoint rstrip (s : string) : string :=
  match s with
  | EmptyString => EmptyString
  | String c s' =>
      let r := rstrip s' in
      if isspace c && is_empty r then EmptyString else String c r
  end.

Definition strip (s : string) : string := rstrip (lstrip s).

(** [s.startswith(p)] *)
Fixpoint startswith (s p : string) : bool :=
  match p, s with
  | EmptyString, _ => true
  | String _ _, EmptyString => false
  | String a p', String b s' => Ascii.eqb a b && startswith s' p'
  end.

(** [sub in s] *)
Fixpoint contains (sub s : string) : bool :=
  startswith s sub ||
  match s with
  | EmptyString => false
  | String _ s' => contains sub s'
  end.

(** [s.count(c)] for a one-character [c] *)
Fixpoint count_char (c : ascii) (s : string) : nat :=
  match s with
  | EmptyString => 0
  | String a s' => (if Ascii.eqb a c then 1 else 0) + count_char c s'
  end.

(** [s[:n]] and [s[n:]] for [n >= 0] *)
Fixpoint take (n : nat) (s : string) : string :=
  match n, s with
  | S n', String c s' => String c (take n' s')
  | _, _ => EmptyString
  end.

Fixpoint drop (n : nat) (s : string) : string :=
  match n, s with
  | S n', String _ s' => drop n' s'
  | _, _ => s
  end.

(** [s.endswith(p)] *)
Definition endswith (s p : string) : bool :=
  Nat.leb (String.length p) (String.length s)
  && String.eqb (drop (String.length s - String.length p) s) p.

(** [s.split(c)] for a one-character separator: never the empty list. *)
Fixpoint split_char (c : ascii) (s : string) : list string :=
  match s with
  | EmptyString => [EmptyString]
  | String a s' =>
      if Ascii.eqb a c then EmptyString :: split_char c s'
      else match split_char c s' with
           | [] => [String a EmptyString]
           | w :: ws => String a w :: ws
           end
  end.

(** The first occurrence of a non-empty [sep] in [s]: the text before it
    and the text after it. *)
Fixpoint find_first (sep s : string) : option (string * string) :=
  if startswith s sep then Some (EmptyString, drop (String.length sep) s)
  else match s with
       | EmptyString => None
       | String c s' =>
           match find_first sep s' with
           | Some (b, a) => Some (String c b, a)
           | None => None
           end
       end.

(** [s.split(sep, 1)] *)
Definition split1 (sep s : string) : list string :=
  match find_first sep s with
  | Some (b, a) => [b; a]
  | None => [s]
  end.

(** [s.isupper()]: no lowercase character and at least one uppercase one. *)
Fixpoint isupper_from (cased : bool) (s : string) : bool :=
  match s with
  | EmptyString => cased
  | String c s' =>
      if char_islower c then false
      else isupper_from (cased || char_isupper c) s'
  end.

Definition isupper (s : string) : bool := isupper_from false s.

(** [s.istitle()]: uppercase characters only after uncased ones, lowercase
    characters only after cased ones, and at least one cased character. *)
Fixpoint istitle_from (previous_is_cased cased : bool) (s : string) : bool :=
  match s with
  | EmptyString => cased
  | String c s' =>
      if char_isupper c then
        if previous_is_cased then false else istitle_from true true s'
      else if char_islower c then
        if previous_is_cased then istitle_from true true s' else false
      else istitle_from false cased s'
  end.

Definition istitle (s : string) : bool := istitle_from false false s.

(** The first element of [s.split()]; [None] when [s] has no token, where
    Python's [s.split()[0]] raises IndexError. *)
Fixpoint token (s : string) : string :=
  match s with
  | EmptyString => EmptyString
  | String c s' => if isspace c then EmptyString else String c (token s')
  end.

Definition first_token (s : string) : option string :=
  match lstrip s with
  | EmptyString => None
  | t => Some (token t)
  end.

(** [s.replace(old, new)]: the occurrences of [old] are replaced from left
    to right, without overlap. *)
Fixpoint replace_from (old new : string) (skip : nat) (s : string) : string :=
  match s with
  | EmptyString => EmptyString
  | String c s' =>
      match skip with
      | S k => replace_from old new k s'
      | O =>
          if startswith s old
          then new ++ replace_from old new (String.length old - 1) s'
          else String c (replace_from old new 0 s')
      end
  end.

Fixpoint interleave (new s : string) : string :=
  match s with
  | EmptyString => new
  | String c s' => new ++ String c (interleave new s')
  end.

Definition replace (old new s : string) : string :=
  if is_empty old then interleave new s else replace_from old new 0 s.

(** [sep.join(l)] *)
Fixpoint join (sep : string) (l : list string) : string :=
  match l with
  | [] => EmptyString
  | [x] => x
  | x :: l' => x ++ sep ++ join sep l'
  end.

Definition nl : string := String "010"%char EmptyString.
Definition dquote : string := String "034"%char EmptyString.

End PyStr.

Import PyStr.

(** ** Regular expressions of [process_prisma_checklist]

    The section patterns use literal characters and [\s+] only.  Under
    [re.IGNORECASE] a literal matches a character of the text when both have
    the same lower-case form. *)

Module Re.

Inductive elem : Type :=
| Lit (c : ascii)
| Spaces.    (* \s+ *)

Definition pattern := list elem.

Fixpoint lit (s : string) : pattern :=
  match s with
  | EmptyString => []
  | String c s' => Lit c :: lit s'
  end.

(** [match_here p s]: [p] matches a prefix of [s], ignoring case. *)
Fixpoint match_here (p : pattern) (s : string) {struct s} : bool :=
  match p with
  | [] => true
  | e :: p' =>
      match s with
      | EmptyString => false
      | String c s' =>
          match e with
          | Lit a => Ascii.eqb (char_lower c) (char_lower a) && match_here p' s'
          | Spaces => isspace c && (match_here p s' || match_here p' s')
          end
      end
  end.

(** [re.search(p, s, re.IGNORECASE)] as a truth value *)
Fixpoint search (p : pattern) (s : string) : bool :=
  match_here p s ||
  match s with
  | EmptyString => false
  | String _ s' => search p s'
  end.

End Re.

(** ** Data model *)

(** A checklist item: the PRISMA parser stores the item text as a bare
    string, the other parsers store a dict with keys [text] and
    [instruction]. *)
Inductive Item : Type :=
| Bare (text : string)
| Dict (text instruction : string).

(** The dict with keys [section], [items] and [guidance]. *)
Record ChecklistSection : Type := mkSection {
  section : string;
  items : list Item;
  guidance : string
}.

Definition DEFAULT_GUIDANCE : string :=
  "Extract information related to this section from the manuscript.".

Definition DEFAULT_INSTRUCTION : string :=
  "Answer based on the manuscript text.".

(** Truth value of a list and of a string in a Python condition. *)
Definition nonempty {A : Type} (l : list A) : bool :=
  match l with [] => false | _ => true end.

Definition truthy (s : string) : bool := negb (is_empty s).

(** ** detect_checklist_type *)

Definition detect_checklist_type (content : string) : string :=
  let content_lower := lower content in
  if contains "prisma" content_lower
     && (contains "systematic review" content_lower
         || contains "meta-analysis" content_lower)
  then "PRISMA"
  else if contains "stard" content_lower
          && contains "diagnostic accuracy" content_lower
  then "STARD"
  else if contains "consort" content_lower
          && contains "randomized" content_lower
  then "CONSORT"
  else if contains "::" content || Nat.ltb 5 (count_char "#" content)
  then "custom"
  else "generic".

(** ** process_prisma_checklist *)

Definition section_patterns : list Re.pattern :=
  [ Re.lit "Title" ++ [Re.Spaces] ++ Re.lit "and" ++ [Re.Spaces]
      ++ Re.lit "Abstract";
    Re.lit "Introduction";
    Re.lit "Methods";
    Re.lit "Results";
    Re.lit "Discussion";
    Re.lit "Funding" ]%list.

(** [sections[-1]["items"].append(it)] *)
Fixpoint append_to_last (sections : list ChecklistSection) (it : Item)
  : list ChecklistSection :=
  match sections with
  | [] => []
  | [s] => [mkSection (section s) (items s ++ [it]) (guidance s)]
  | s :: rest => s :: append_to_last rest it
  end.

(** One iteration of the loop over the lines; the state is [sections] and
    [current_section] ([None] before the first header). *)
Definition prisma_step (st : list ChecklistSection * option string)
    (raw_line : string) : list ChecklistSection * option string :=
  let '(sections, current_section) := st in
  let line := strip raw_line in
  if is_empty line then st
  else
    let is_section_header :=
      existsb (fun pattern => Re.search pattern line) section_patterns in
    let current_section_set :=
      match current_section with Some s => truthy s | None => false end in
    if is_section_header then
      (sections ++ [mkSection line [] DEFAULT_GUIDANCE], Some line)%list
    else if current_section_set && contains "#" line then
      (* the index 1 exists: the line contains "#" *)
      let item_text :=
        if contains "#" line then strip (nth 1 (split1 "#" line) "")
        else line in
      if nonempty sections
      then (append_to_last sections (Bare item_text), current_section)
      else st
    else if current_section_set && truthy line then
      if nonempty sections && truthy line
      then (append_to_last sections (Bare line), current_section)
      else st
    else st.

Definition process_prisma_checklist (content : string)
  : list ChecklistSection :=
  fst (fold_left prisma_step (split_char "010" content) ([], None)).

(** ** process_custom_checklist *)

Record builder : Type := mkBuilder {
  b_sections : list ChecklistSection;
  b_current_section : string;
  b_items : list Item
}.

Definition custom_step (st : builder) (raw_line : string) : builder :=
  let line := strip raw_line in
  if is_empty line || startswith line "#" then st
  else if contains "::" line then
    match map strip (split1 "::" line) with
    | [item_text; instruction] =>
        let st1 :=
          if contains ":" item_text
             && Nat.ltb (String.length (nth 0 (split1 ":" item_text) "")) 30
          then
            let section_name := strip (nth 0 (split1 ":" item_text) "") in
            if nonempty (b_items st) && truthy (b_current_section st)
            then mkBuilder
                   (b_sections st ++
                    [mkSection (b_current_section st) (b_items st)
                       DEFAULT_GUIDANCE])%list
                   section_name []
            else mkBuilder (b_sections st) section_name (b_items st)
          else st in
        mkBuilder (b_sections st1) (b_current_section st1)
          (b_items st1 ++ [Dict item_text instruction])%list
    | _ => st  (* not reached: a line containing "::" splits in two *)
    end
  else
    mkBuilder (b_sections st) (b_current_section st)
      (b_items st ++ [Dict line DEFAULT_INSTRUCTION])%list.

(** The flush after the loop, shared by the custom and generic parsers. *)
Definition add_last_section (st : builder) : list ChecklistSection :=
  if nonempty (b_items st)
  then (b_sections st ++
        [mkSection (b_current_section st) (b_items st) DEFAULT_GUIDANCE])%list
  else b_sections st.

Definition process_custom_checklist (content : string)
  : list ChecklistSection :=
  add_last_section
    (fold_left custom_step (split_char "010" content)
       (mkBuilder [] "General" [])).

(** ** process_generic_checklist *)

(** [line.split()[0]] exists for every line the loop tests: the line is
    stripped and not empty. *)
Definition is_section_header (line : string) : bool :=
  isupper line
  || endswith line ":"
  || (Nat.ltb (String.length line) 50
      && match first_token line with
         | Some t => istitle t
         | None => false
         end).

Definition generic_step (st : builder) (raw_line : string) : builder :=
  let line := strip raw_line in
  if is_empty line then st
  else if is_section_header line then
    if nonempty (b_items st)
    then mkBuilder
           (b_sections st ++
            [mkSection (b_current_section st) (b_items st)
               DEFAULT_GUIDANCE])%list
           line []
    else mkBuilder (b_sections st) line (b_items st)
  else
    mkBuilder (b_sections st) (b_current_section st)
      (b_items st ++ [Dict line DEFAULT_INSTRUCTION])%list.

Definition process_generic_checklist (content : string)
  : list ChecklistSection :=
  add_last_section
    (fold_left generic_step (split_char "010" content)
       (mkBuilder [] "General" [])).

Definition process_stard_checklist (content : string) :=
  process_generic_checklist content.

Definition process_consort_checklist (content : string) :=
  process_generic_checklist content.

(** ** process_checklist_content *)

(** The dispatch on the detected type. *)
Definition process_as (checklist_type content : string)
  : list ChecklistSection :=
  if String.eqb checklist_type "PRISMA" then process_prisma_checklist content
  else if String.eqb checklist_type "STARD" then process_stard_checklist content
  else if String.eqb checklist_type "CONSORT"
  then process_consort_checklist content
  else if String.eqb checklist_type "custom"
  then process_custom_checklist content
  else process_generic_checklist content.

Definition process_checklist_content (content : string)
  : list ChecklistSection :=
  process_as (detect_checklist_type content) content.

(** ** The Ollama service

    [post_generate payload] stands for the request every resolver makes
    inside its [try] block:
    [requests.post(OLLAMA_API_URL, json=payload)], [raise_for_status()],
    [response.json()] and [response_data.get('response', '')].  It yields
    the response text or the exception raised on the way, classified as the
    [except] clauses of [generate_item_answer] classify it. *)

Inductive Exception : Type :=
| ConnectionError (e : string)
    (* a requests.exceptions.ConnectionError *)
| RequestException (e : string)
    (* a requests.exceptions.RequestException that is no ConnectionError;
       requests.exceptions.JSONDecodeError, which [response.json()] raises
       for a body that is no JSON (requests 2.27 and later), is one *)
| JSONDecodeError (e : string)
    (* a json.JSONDecodeError that is no RequestException *)
| OtherException (e : string).
    (* any other Exception *)

Record Payload : Type := mkPayload {
  model : string;
  prompt : string;
  stream : bool;
  temperature : QArith_base.Q;
  stop : option (list string)
}.

(** [payload["prompt"] = p] *)
Definition set_prompt (payload : Payload) (p : string) : Payload :=
  mkPayload (model payload) p (stream payload) (temperature payload)
    (stop payload).

Definition GUIDANCE_FAILED : string :=
  "Failed to obtain preprocessing guidance. Proceeding with default approach.".

Definition NOT_FOUND : string :=
  "Information not found in the provided text snippet.".

Definition general_prompt (section_names : list string) : string :=
  "I need to fill a medical/scientific checklist based on a manuscript. The checklist has the following sections:"
  ++ nl ++ nl ++ join ", " section_names ++ nl ++ nl
  ++ "The manuscript appears to be a medical/scientific paper. For each section, I need to extract relevant information."
  ++ nl ++ nl
  ++ "Provide specific guidance on how to approach extracting information for each of these sections from a scientific manuscript."
  ++ nl
  ++ "Be specific about what types of content to look for in each section.".

Definition section_prompt (sec : ChecklistSection) : string :=
  "For the checklist section " ++ dquote ++ section sec ++ dquote
  ++ " in a medical/scientific paper checklist:" ++ nl ++ nl
  ++ "1. What specific information should I look for in the manuscript?" ++ nl
  ++ "2. Where in a scientific manuscript would this information typically be found?"
  ++ nl
  ++ "3. What are key phrases or concepts that would indicate this information?"
  ++ nl ++ nl ++ "Provide specific, concise guidance.".

Definition extraction_prompt (sec : ChecklistSection)
    (manuscript_text : string) : string :=
  "Given the following manuscript text, extract the portions most relevant to the "
  ++ dquote ++ section sec ++ dquote ++ " section of a scientific checklist."
  ++ nl ++ nl ++ "Section Guidance: " ++ guidance sec ++ nl ++ nl
  ++ "Manuscript Text:" ++ nl ++ "---" ++ nl
  ++ take 5000 manuscript_text
  ++ "  # Limit to first 5000 chars to avoid token limits" ++ nl
  ++ "---" ++ nl ++ nl
  ++ "Extract only the most relevant parts of the text for the "
  ++ dquote ++ section sec ++ dquote ++ " section.".

Definition item_prompt (item_text instruction section_guidance
    context_text : string) : string :=
  "Based on the following manuscript text, provide a concise answer for the checklist item: '"
  ++ item_text ++ "'" ++ nl ++ nl
  ++ "Specific instruction for this item: " ++ instruction ++ nl ++ nl
  ++ "Section guidance: " ++ section_guidance ++ nl ++ nl
  ++ "Manuscript Text:" ++ nl ++ "---" ++ nl ++ context_text ++ nl
  ++ "---" ++ nl ++ nl ++ "Checklist Item: " ++ item_text ++ nl ++ nl
  ++ "Answer concisely based only on the provided text. If the information isn't present, state that."
  ++ nl ++ "Answer: ".

(** The "basic cleanup" of [generate_item_answer], applied to the stripped
    response. *)
Definition cleanup (answer : string) : string :=
  let answer :=
    if is_empty answer || startswith (lower answer) "answer:"
    then strip (last (split1 ":" answer) "")
    else answer in
  if is_empty answer then NOT_FOUND else answer.

(** The value returned by the [except] clauses of [generate_item_answer]. *)
Definition error_answer (exn : Exception) (item_text : string) : string :=
  match exn with
  | ConnectionError _ =>
      "Error: Ollama connection failed for item '" ++ item_text ++ "'"
  | RequestException e =>
      "Error: Ollama request failed for item '" ++ item_text ++ "': " ++ e
  | JSONDecodeError _ =>
      "Error: Ollama JSON decode failed for item '" ++ item_text ++ "'"
  | OtherException e => "Error generating answer: " ++ e
  end.

(** The [isinstance(item, dict)] test. *)
Definition item_text_of (it : Item) : string :=
  match it with
  | Dict text _ => text
  | Bare text => text
  end.

Definition instruction_of (it : Item) : string :=
  match it with
  | Dict _ instruction => instruction
  | Bare _ => "Answer based on the manuscript text."
  end.

(** The dict with keys [item] and [answer]. *)
Record AnswerRecord : Type := mkAnswer {
  item : string;
  answer : string
}.

Section Resolvers.

Variable World : Type.
Variable post_generate : Payload -> World -> (Exception + string) * World.

(** Computations that talk to the service thread its state. *)
Definition M (A : Type) : Type := World -> A * World.

Definition ret {A : Type} (a : A) : M A := fun w => (a, w).

Definition bind {A B : Type} (m : M A) (k : A -> M B) : M B :=
  fun w => let (a, w') := m w in k a w'.

Notation "x <- m ;; k" := (bind m (fun x => k))
  (at level 61, m at next level, right associativity).

(** *** preprocess_checklist *)

(** The loop over [enumerate(sections)]: a failure keeps the section as it
    is and the loop goes on. *)
Fixpoint section_guidance_loop (payload : Payload)
    (sections : list ChecklistSection) : M (list ChecklistSection) :=
  match sections with
  | [] => ret []
  | sec :: rest =>
      r <- post_generate (set_prompt payload (section_prompt sec)) ;;
      let sec' :=
        match r with
        | inr response =>
            mkSection (section sec) (items sec) (strip response)
        | inl _ => sec
        end in
      rest' <- section_guidance_loop payload rest ;;
      ret (sec' :: rest')
  end.

Definition general_payload (sections : list ChecklistSection)
    (ollama_model_name : string) : Payload :=
  mkPayload ollama_model_name (general_prompt (map section sections)) false
    (QArith_base.Qmake 7 10) None.

Definition preprocess_checklist (sections : list ChecklistSection)
    (manuscript_text ollama_model_name : string)
  : M (list ChecklistSection * string) :=
  let payload := general_payload sections ollama_model_name in
  r <- post_generate payload ;;
  match r with
  | inr response =>
      let general_guidance := strip response in
      sections' <- section_guidance_loop payload sections ;;
      ret (sections', general_guidance)
  | inl _ => ret (sections, GUIDANCE_FAILED)
  end.

(** The results of the per-section requests, in the order they are made;
    [None] stands for a request that is never made. *)
Fixpoint loop_outcomes (payload : Payload)
    (sections : list ChecklistSection) (w : World)
  : list (Exception + string) :=
  match sections with
  | [] => []
  | sec :: rest =>
      let (r, w') :=
        post_generate (set_prompt payload (section_prompt sec)) w in
      r :: loop_outcomes payload rest w'
  end.

Definition guidance_outcomes (sections : list ChecklistSection)
    (ollama_model_name : string) (w : World)
  : list (option (Exception + string)) :=
  let payload := general_payload sections ollama_model_name in
  match post_generate payload w with
  | (inr _, w1) => map Some (loop_outcomes payload sections w1)
  | (inl _, _) => map (fun _ => None) sections
  end.

(** *** extract_section_text *)

Definition extraction_payload (sec : ChecklistSection)
    (manuscript_text ollama_model_name : string) : Payload :=
  mkPayload ollama_model_name (extraction_prompt sec manuscript_text) false
    (QArith_base.Qmake 3 10) None.

Definition extract_section_text (sec : ChecklistSection)
    (manuscript_text ollama_model_name : string) : M string :=
  let payload := extraction_payload sec manuscript_text ollama_model_name in
  r <- post_generate payload ;;
  match r with
  | inl _ => ret (take 1500 manuscript_text)
  | inr response =>
      let section_text := strip response in
      if Nat.ltb (String.length section_text) 100
         && Nat.ltb 5000 (String.length manuscript_text)
      then
        (* manuscript_text[5000:10000] *)
        let prompt' :=
          replace (take 5000 manuscript_text)
            (take 5000 (drop 5000 manuscript_text)) (prompt payload) in
        r' <- post_generate (set_prompt payload prompt') ;;
        match r' with
        | inl _ => ret (take 1500 manuscript_text)
        | inr response' =>
            ret (section_text ++ nl ++ nl ++ strip response')
        end
      else ret section_text
  end.

(** *** generate_item_answer *)

Definition item_payload (item_text instruction section_guidance
    manuscript_text section_text ollama_model_name : string) : Payload :=
  let context_text :=
    section_text ++ nl ++ nl ++ "--- Additional manuscript text ---"
    ++ nl ++ nl ++ take 1000 manuscript_text in
  mkPayload ollama_model_name
    (item_prompt item_text instruction section_guidance context_text) false
    (QArith_base.Qmake 5 10) (Some ["\n"; "Checklist Item:"]).

Definition generate_item_answer (item_text instruction section_guidance
    general_guidance manuscript_text section_text ollama_model_name : string)
  : M string :=
  r <- post_generate
         (item_payload item_text instruction section_guidance
            manuscript_text section_text ollama_model_name) ;;
  match r with
  | inr response => ret (cleanup (strip response))
  | inl exn => ret (error_answer exn item_text)
  end.

(** *** generate_section_answers *)

Fixpoint answer_loop (sec : ChecklistSection)
    (manuscript_text ollama_model_name general_guidance section_text : string)
    (its : list Item) : M (list AnswerRecord) :=
  match its with
  | [] => ret []
  | it :: rest =>
      let item_text := item_text_of it in
      let instruction := instruction_of it in
      a <- generate_item_answer item_text instruction (guidance sec)
             general_guidance manuscript_text section_text
             ollama_model_name ;;
      rest' <- answer_loop sec manuscript_text ollama_model_name
                 general_guidance section_text rest ;;
      ret (mkAnswer item_text a :: rest')
  end.

Definition generate_section_answers (sec : ChecklistSection)
    (manuscript_text ollama_model_name general_guidance : string)
  : M (list AnswerRecord) :=
  section_text <- extract_section_text sec manuscript_text
                    ollama_model_name ;;
  answer_loop sec manuscript_text ollama_model_name general_guidance
    section_text (items sec).

End Resolvers.

Arguments ret {World A} a.
Arguments bind {World A B} m k.
Arguments section_guidance_loop {World} post_generate payload sections _.
Arguments preprocess_checklist {World} post_generate sections
  manuscript_text ollama_model_name _.
Arguments loop_outcomes {World} post_generate payload sections w.
Arguments guidance_outcomes {World} post_generate sections
  ollama_model_name w.
Arguments extract_section_text {World} post_generate sec manuscript_text
  ollama_model_name _.
Arguments generate_item_answer {World} post_generate item_text instruction
  section_guidance general_guidance manuscript_text section_text
  ollama_model_name _.
Arguments answer_loop {World} post_generate sec manuscript_text
  ollama_model_name general_guidance section_text its _.
Arguments generate_section_answers {World} post_generate sec
  manuscript_text ollama_model_name general_guidance _.

(** The answers of a list of items, as the two item shapes ask for them:
    one record per item, in order, each with the text of its item and the
    answer that [generate_item_answer] gives for it in the state the
    previous item left.  A bare string is asked with the instruction
    "Answer based on the manuscript text.", a dict with its own. *)
Inductive item_answers {World : Type}
    (post_generate : Payload -> World -> (Exception + string) * World)
    (section_guidance general_guidance manuscript_text section_text
       ollama_model_name : string)
  : list Item -> World -> list AnswerRecord -> World -> Prop :=
| answers_done (w : World) :
    item_answers post_generate section_guidance general_guidance
      manuscript_text section_text ollama_model_name [] w [] w
| answers_bare (text : string) (rest : list Item) (w : World) (a : string)
    (w1 : World) (records : list AnswerRecord) (w2 : World) :
    generate_item_answer post_generate text
      "Answer based on the manuscript text." section_guidance
      general_guidance manuscript_text section_text ollama_model_name w
    = (a, w1) ->
    item_answers post_generate section_guidance general_guidance
      manuscript_text section_text ollama_model_name rest w1 records w2 ->
    item_answers post_generate section_guidance general_guidance
      manuscript_text section_text ollama_model_name (Bare text :: rest) w
      (mkAnswer text a :: records) w2
| answers_dict (text instruction : string) (rest : list Item) (w : World)
    (a : string) (w1 : World) (records : list AnswerRecord) (w2 : World) :
    generate_item_answer post_generate text instruction section_guidance
      general_guidance manuscript_text section_text ollama_model_name w
    = (a, w1) ->
    item_answers post_generate section_guidance general_guidance
      manuscript_text section_text ollama_model_name rest w1 records w2 ->
    item_answers post_generate section_guidance general_guidance
      manuscript_text section_text ollama_model_name
      (Dict text instruction :: rest) w (mkAnswer text a :: records) w2.

(** The payload of the second request of [extract_section_text]. *)
Definition retry_payload (sec : ChecklistSection)
    (manuscript_text ollama_model_name : string) : Payload :=
  set_prompt (extraction_payload sec manuscript_text ollama_model_name)
    (replace (take 5000 manuscript_text)
       (take 5000 (drop 5000 manuscript_text))
       (extraction_prompt sec manuscript_text)).

(** A service that answers from a script and records what it is sent; with
    the script used up, the connection fails. *)
Module Scripted.

Record World : Type := mkWorld {
  script : list (Exception + string);
  sent : list Payload
}.

Definition post_generate (payload : Payload) (w : World)
  : (Exception + string) * World :=
  match script w with
  | [] => (inl (ConnectionError "Connection refused"),
           mkWorld [] (sent w ++ [payload]))
  | r :: rest => (r, mkWorld rest (sent w ++ [payload]))
  end.

Definition start (s : list (Exception + string)) : World := mkWorld s [].

End Scripted.

(** ** Notions the specification uses *)

(** The format variants of the specification and the strings
    [detect_checklist_type] returns for them. *)
Inductive FormatVariant : Type := PRISMA | STARD | CONSORT | CUSTOM | GENERIC.

Definition variant_name (v : FormatVariant) : string :=
  match v with
  | PRISMA => "PRISMA"
  | STARD => "STARD"
  | CONSORT => "CONSORT"
  | CUSTOM => "custom"
  | GENERIC => "generic"
  end.

(** [keyword] occurs in [s] when the case of the letters is ignored. *)
Fixpoint starts_ci (keyword s : string) : bool :=
  match keyword, s with
  | EmptyString, _ => true
  | String _ _, EmptyString => false
  | String a k', String b s' =>
      Ascii.eqb (char_lower a) (char_lower b) && starts_ci k' s'
  end.

Fixpoint contains_ci (keyword s : string) : bool :=
  starts_ci keyword s ||
  match s with
  | EmptyString => false
  | String _ s' => contains_ci keyword s'
  end.

(** The five-step classifier of the specification, first match wins. *)
Definition classify (raw_text : string) : FormatVariant :=
  if contains_ci "prisma" raw_text
     && (contains_ci "systematic review" raw_text
         || contains_ci "meta-analysis" raw_text)
  then PRISMA
  else if contains_ci "stard" raw_text
          && contains_ci "diagnostic accuracy" raw_text
  then STARD
  else if contains_ci "consort" raw_text && contains_ci "randomized" raw_text
  then CONSORT
  else if contains "::" raw_text || Nat.ltb 5 (count_char "#" raw_text)
  then CUSTOM
  else GENERIC.

(** Section names with the texts of their items. *)
Definition outline (sections : list ChecklistSection)
  : list (string * list string) :=
  map (fun s => (section s, map item_text_of (items s))) sections.

Definition has_items (s : ChecklistSection) : Prop := items s <> [].

Definition is_bare (it : Item) : Prop :=
  match it with Bare _ => True | Dict _ _ => False end.

(** Lines of a custom checklist: blank lines and comments are skipped; a
    header line has [::] and, before it, a colon with fewer than 30
    characters in front, which name the section. *)
Definition custom_skipped (raw_line : string) : bool :=
  let line := strip raw_line in
  is_empty line || startswith line "#".

Definition custom_header_name (raw_line : string) : option string :=
  let line := strip raw_line in
  if custom_skipped raw_line then None
  else if contains "::" line then
    let item_text := strip (nth 0 (split1 "::" line) "") in
    let before_colon := nth 0 (split1 ":" item_text) "" in
    if contains ":" item_text && Nat.ltb (String.length before_colon) 30
    then Some (strip before_colon)
    else None
  else None.

(** The item a line of a custom checklist stands for. *)
Definition custom_item (raw_line : string) : Item :=
  let line := strip raw_line in
  if contains "::" line
  then Dict (strip (nth 0 (split1 "::" line) ""))
            (strip (nth 1 (split1 "::" line) ""))
  else Dict line DEFAULT_INSTRUCTION.

Definition custom_items (raw_lines : list string) : list Item :=
  map custom_item (filter (fun l => negb (custom_skipped l)) raw_lines).

(** Everything after the first colon; the whole text when it has none. *)
Definition after_first_colon (s : string) : string :=
  match find_first ":" s with
  | Some (_, rest) => rest
  | None => s
  end.

(** ** Sample inputs *)

Definition scenario : string :=
  "Methods" ++ nl ++ "#1 Study design" ++ nl ++ "#2 Setting" ++ nl
  ++ "Results" ++ nl ++ "#3 Outcomes".

Definition prisma_header_only : string :=
  "PRISMA systematic review" ++ nl ++ "Methods".

Definition two_blocks : string :=
  "Methods: design :: Describe the design." ++ nl ++ "Setting" ++ nl
  ++ "Results: outcomes :: List the outcomes." ++ nl
  ++ "Harms :: Report the harms.".

Definition unnamed_first_block : string :=
  ": design :: Describe the design." ++ nl ++ "Setting" ++ nl
  ++ "Results: outcomes :: List the outcomes." ++ nl
  ++ "Harms :: Report the harms.".

Definition methods : ChecklistSection :=
  mkSection "Methods" [Bare "1 Study design"; Bare "2 Setting"]
    DEFAULT_GUIDANCE.

Definition results : ChecklistSection :=
  mkSection "Results" [Bare "3 Outcomes"] DEFAULT_GUIDANCE.

Fixpoint filler (n : nat) : string :=
  match n with
  | O => EmptyString
  | S n' => String "x" (filler n')
  end.

Definition long_manuscript : string := filler (S 5000).

(** ** The run of [main] between parsing and rendering *)

Section Run.

Variable World : Type.
Variable post_generate : Payload -> World -> (Exception + string) * World.

Notation "x <- m ;; k" := (bind m (fun x => k))
  (at level 61, m at next level, right associativity).

(** The loop of [main] over [processed_sections]. *)
Fixpoint all_section_answers (sections : list ChecklistSection)
    (manuscript_text ollama_model_name general_guidance : string)
  : M World (list (list AnswerRecord)) :=
  match sections with
  | [] => ret []
  | sec :: rest =>
      section_answers <- generate_section_answers post_generate sec
                           manuscript_text ollama_model_name
                           general_guidance ;;
      rest' <- all_section_answers rest manuscript_text ollama_model_name
                 general_guidance ;;
      ret (section_answers :: rest')
  end.

(** [main], from the call of [preprocess_checklist] to the arguments of
    [create_pdf]: the processed sections, the answers and the general
    guidance. *)
Definition main_answers (sections : list ChecklistSection)
    (manuscript_text ollama_model_name : string)
  : M World (list ChecklistSection * list (list AnswerRecord) * string) :=
  r <- preprocess_checklist post_generate sections manuscript_text
         ollama_model_name ;;
  let '(processed_sections, general_guidance) := r in
  answers <- all_section_answers processed_sections manuscript_text
               ollama_model_name general_guidance ;;
  ret (processed_sections, answers, general_guidance).

End Run.

Arguments all_section_answers {World} post_generate sections manuscript_text
  ollama_model_name general_guidance _.
Arguments main_answers {World} post_generate sections manuscript_text
  ollama_model_name _.

(** ** Text extraction

    The file system and the document readers are called, not defined, by
    the code.  [splitext_ext filepath] is the extension that
    [os.path.splitext(filepath)] returns; a reader gives [None] where the
    library raises, which is what every [except Exception] clause turns
    into the result [None].  A page text is [None] where
    [page.extract_text()] returns [None]. *)

(** src/suggest_checklist.py *)
Module SuggestChecklist.

Section TextSource.

Variable splitext_ext : string -> string.
Variable path_exists : string -> bool.
Variable pdf_page_texts : string -> option (list (option string)).
Variable docx_paragraph_texts : string -> option (list string).
Variable txt_contents : string -> option string.

(** The loop body [if page_text: text += page_text + "\\n"]: the Python
    literal is a backslash followed by the letter n. *)
Definition add_page (text : string) (page_text : option string) : string :=
  match page_text with
  | Some t => if truthy t then text ++ t ++ "\n" else text
  | None => text
  end.

Definition extract_text_from_pdf (filepath : string) : option string :=
  match pdf_page_texts filepath with
  | Some pages => Some (fold_left add_page pages "")
  | None => None
  end.

Definition extract_text_from_docx (filepath : string) : option string :=
  match docx_paragraph_texts filepath with
  | Some paragraphs => Some (join "\n" paragraphs)
  | None => None
  end.

Definition extract_text_from_txt (filepath : string) : option string :=
  txt_contents filepath.

Definition extract_manuscript_text (filepath : string) : option string :=
  let ext := lower (splitext_ext filepath) in
  if negb (path_exists filepath) then None
  else if String.eqb ext ".pdf" then extract_text_from_pdf filepath
  else if String.eqb ext ".docx" then extract_text_from_docx filepath
  else if String.eqb ext ".txt" then extract_text_from_txt filepath
  else None.

End TextSource.

End SuggestChecklist.

(** src/checksupport/utils.py *)
Module Utils.

Section TextSource.

Variable splitext_ext : string -> string.
Variable path_exists : string -> bool.
Variable pdf_page_texts : string -> option (list (option string)).
Variable docx_paragraph_texts : string -> option (list string).
Variable txt_contents : string -> option string.

(** The loop body [if page_text: text += page_text + "\n"]. *)
Definition add_page (text : string) (page_text : option string) : string :=
  match page_text with
  | Some t => if truthy t then text ++ t ++ nl else text
  | None => text
  end.

Definition extract_text_from_pdf (filepath : string) : option string :=
  match pdf_page_texts filepath with
  | Some pages => Some (fold_left add_page pages "")
  | None => None
  end.

Definition extract_text_from_docx (filepath : string) : option string :=
  match docx_paragraph_texts filepath with
  | Some paragraphs => Some (join nl paragraphs)
  | None => None
  end.

Definition extract_text_from_txt (filepath : string) : option string :=
  txt_contents filepath.

Definition extract_manuscript_text (filepath : string) : option string :=
  let ext := lower (splitext_ext filepath) in
  if negb (path_exists filepath) then None
  else if String.eqb ext ".pdf" then extract_text_from_pdf filepath
  else if String.eqb ext ".docx" then extract_text_from_docx filepath
  else if String.eqb ext ".txt" then extract_text_from_txt filepath
  else None.

End TextSource.

(** *** get_suggest_prompt *)

Definition get_suggest_prompt (manuscript_text : string)
    (available_checklists : list string) : string :=
  let available_checklists_str := join ", " available_checklists in
  "Analyze the following research manuscript abstract or introduction text and determine the most appropriate reporting checklist based on the Enhancing the QUAlity and Transparency Of health Research (EQUATOR) Network."
  ++ nl ++ nl ++ "Manuscript Text:" ++ nl ++ "---" ++ nl
  ++ take 2000 manuscript_text ++ "  # Limit prompt length" ++ nl
  ++ "---" ++ nl ++ nl
  ++ "Available checklists: " ++ available_checklists_str ++ nl ++ nl
  ++ "Based on the text, which of the following reporting checklists is most suitable?"
  ++ nl
  ++ "Choose exactly ONE checklist name from the list above. Your answer should be only the name of the checklist (e.g., PRISMA).".

Section Service.

Variable World : Type.

(** The request to [/api/tags] of [check_model_exists], up to the list
    [available_models], or the exception raised on the way. *)
Variable get_tags : World -> (Exception + list string) * World.

(** As [post_generate] above, with [timeout=30]. *)
Variable post_generate : Payload -> World -> (Exception + string) * World.

Notation "x <- m ;; k" := (bind m (fun x => k))
  (at level 61, m at next level, right associativity).

(** *** check_model_exists *)

Definition check_model_exists (model_name : string) : M World bool :=
  r <- get_tags ;;
  match r with
  | inr available_models =>
      ret (existsb (String.eqb model_name) available_models)
  | inl _ => ret false
  end.

(** *** call_ollama_api *)

Definition call_ollama_api (prompt model_name : string)
    (temperature : QArith_base.Q) : M World (option string) :=
  r <- post_generate (mkPayload model_name prompt false temperature None) ;;
  match r with
  | inr response => ret (Some (strip response))
  | inl _ => ret None
  end.

End Service.

Arguments check_model_exists {World} get_tags model_name _.
Arguments call_ollama_api {World} post_generate prompt model_name
  temperature _.

End Utils.

(** src/checksupport/suggest_checklist.py; [get_template_names] comes from
    the module [templates], which is not part of the sources: its result is
    a parameter. *)
Module Suggest.

Section Service.

Variable World : Type.
Variable get_tags : World -> (Exception + list string) * World.
Variable post_generate : Payload -> World -> (Exception + string) * World.
Variable get_template_names : list string.

Notation "x <- m ;; k" := (bind m (fun x => k))
  (at level 61, m at next level, right associativity).

(** The loop over [checklist_names], left at the first match. *)
Definition first_mentioned (checklist_names : list string)
    (response_text : string) : option string :=
  find (fun name => contains (lower name) (lower response_text))
    checklist_names.

Definition suggest_checklist_with_ollama
    (manuscript_text ollama_model_name : string) : M World (option string) :=
  model_exists <- Utils.check_model_exists get_tags ollama_model_name ;;
  if negb model_exists then ret None
  else
    let checklist_names := get_template_names in
    let prompt := Utils.get_suggest_prompt manuscript_text checklist_names in
    response_text <- Utils.call_ollama_api post_generate prompt
                       ollama_model_name (QArith_base.Qmake 2 10) ;;
    match response_text with
    | None => ret None
    | Some response_text =>
        ret (first_mentioned checklist_names response_text)
    end.

End Service.

Arguments suggest_checklist_with_ollama {World} get_tags post_generate
  get_template_names manuscript_text ollama_model_name _.

End Suggest.

(** ** Notions used to state what the parsers do *)

(** The header test of [process_prisma_checklist]. *)
Definition is_prisma_header (line : string) : bool :=
  existsb (fun pattern => Re.search pattern line) section_patterns.

(** The lines a parser looks at: trimmed and not empty. *)
Definition content_lines (content : string) : list string :=
  filter (fun line => negb (is_empty line))
    (map strip (split_char "010" content)).

Definition all_items (sections : list ChecklistSection) : list Item :=
  concat (map items sections).

(** The item [process_prisma_checklist] stores for a line under a
    section. *)
Definition prisma_item (line : string) : Item :=
  if contains "#" line
  then Bare (strip (nth 1 (split1 "#" line) ""))
  else Bare line.

(** The lines from the first PRISMA header on. *)
Fixpoint from_first_header (lines : list string) : list string :=
  match lines with
  | [] => []
  | line :: rest =>
      if is_prisma_header line then lines else from_first_header rest
  end.

(** The state of the PRISMA loop once a section is open. *)
Definition section_open (st : list ChecklistSection * option string) : Prop :=
  fst st <> []
  /\ match snd st with Some s => truthy s = true | None => False end.

(** What is still to be flushed counts with what is flushed. *)
Definition pending (st : builder) : list Item :=
  (all_items (b_sections st) ++ b_items st)%list.

(** The page texts that [extract_text_from_pdf] adds to the text. *)
Fixpoint page_texts (pages : list (option string)) : list string :=
  match pages with
  | [] => []
  | Some t :: rest => if truthy t then t :: page_texts rest else page_texts rest
  | None :: rest => page_texts rest
  end.

(** A service that keeps a script per kind of request. *)
Module ScriptedTags.

Record World : Type := mkWorld {
  tags : list (Exception + list string);
  generated : list (Exception + string);
  sent : list Payload
}.

Definition get_tags (w : World) : (Exception + list string) * World :=
  match tags w with
  | [] => (inl (ConnectionError "Connection refused"), w)
  | r :: rest => (r, mkWorld rest (generated w) (sent w))
  end.

Definition post_generate (payload : Payload) (w : World)
  : (Exception + string) * World :=
  match generated w with
  | [] => (inl (ConnectionError "Connection refused"),
           mkWorld (tags w) [] (sent w ++ [payload]))
  | r :: rest => (r, mkWorld (tags w) rest (sent w ++ [payload]))
  end.

End ScriptedTags.

(** * Properties *)

(** ** Strings *)

Lemma fold_left_invariant (A B : Type) (P : A -> Prop) (step : A -> B -> A) :
  (forall a b, P a -> P (step a b)) ->
  forall (l : list B) (a : A), P a -> P (fold_left step l a).
Proof.
  intros Hstep l; induction l as [|b l IH]; intros a Ha; simpl.
  - exact Ha.
  - apply IH, Hstep, Ha.
Qed.

Lemma nonempty_true (A : Type) (l : list A) : nonempty l = true -> l <> [].
Proof. destruct l; [discriminate | intros _; discriminate]. Qed.

Lemma startswith_lower (keyword : string) :
  lower keyword = keyword ->
  forall s, startswith (lower s) keyword = starts_ci keyword s.
Proof.
  induction keyword as [|a k IH]; intros Hk s.
  - destruct s; reflexivity.
  - simpl in Hk. injection Hk as Ha Hk'.
    destruct s as [|b s]; simpl; [reflexivity|].
    rewrite Ha, (IH Hk'). reflexivity.
Qed.

Lemma contains_lower (keyword : string) :
  lower keyword = keyword ->
  forall s, contains keyword (lower s) = contains_ci keyword s.
Proof.
  intros Hk s; induction s as [|b s IH].
  - simpl. rewrite <- (startswith_lower keyword Hk ""). reflexivity.
  - change (contains keyword (lower (String b s)))
      with (startswith (lower (String b s)) keyword
            || contains keyword (lower s)).
    rewrite (startswith_lower keyword Hk), IH. reflexivity.
Qed.

(** What [starts_ci] and [contains_ci] decide: some part of the text has
    the lower-case form of the keyword. *)
Lemma starts_ci_spec (keyword : string) :
  forall s,
    starts_ci keyword s = true
    <-> exists mid rest, s = mid ++ rest /\ lower mid = lower keyword.
Proof.
  induction keyword as [|a k IH]; intros s.
  - split.
    + intros _. exists EmptyString, s. split; reflexivity.
    + intros _. destruct s; reflexivity.
  - destruct s as [|b s].
    + split; [discriminate|].
      intros [mid [rest [Hs Hmid]]]. destruct mid; discriminate.
    + cbn [starts_ci]. rewrite andb_true_iff, Ascii.eqb_eq, IH. split.
      * intros [Hab [mid [rest [Hs Hmid]]]].
        exists (String b mid), rest. cbn [append lower].
        rewrite Hs, Hmid, Hab. split; reflexivity.
      * intros [mid [rest [Hs Hmid]]].
        destruct mid as [|m mid]; [discriminate|].
        cbn [append lower] in Hs, Hmid.
        injection Hs as Hb Hs. injection Hmid as Hm Hmid. subst b.
        split; [symmetry; exact Hm | exists mid, rest; split; assumption].
Qed.

Lemma contains_ci_spec (keyword : string) :
  forall s,
    contains_ci keyword s = true
    <-> exists pre mid rest,
          s = pre ++ mid ++ rest /\ lower mid = lower keyword.
Proof.
  induction s as [|c s IH].
  - cbn [contains_ci]. rewrite orb_false_r, starts_ci_spec. split.
    + intros [mid [rest [Hs Hmid]]]. exists EmptyString, mid, rest.
      split; assumption.
    + intros [pre [mid [rest [Hs Hmid]]]].
      destruct pre; [|discriminate]. exists mid, rest. split; assumption.
  - cbn [contains_ci]. rewrite orb_true_iff, starts_ci_spec, IH. split.
    + intros [[mid [rest [Hs Hmid]]] | [pre [mid [rest [Hs Hmid]]]]].
      * exists EmptyString, mid, rest. split; assumption.
      * exists (String c pre), mid, rest. cbn [append]. rewrite Hs.
        split; [reflexivity | assumption].
    + intros [pre [mid [rest [Hs Hmid]]]]. destruct pre as [|p pre].
      * left. exists mid, rest. split; assumption.
      * right. cbn [append] in Hs. injection Hs as _ Hs.
        exists pre, mid, rest. split; assumption.
Qed.

(** ** The classifier *)

(** C4: [detect_checklist_type] is the five-step, first-match-wins
    classifier of the specification: for every text it returns the name of
    the variant that [classify] selects, where keywords are looked up
    ignoring case. *)
Theorem detect_checklist_type_classify (content : string) :
  detect_checklist_type content = variant_name (classify content).
Proof.
  unfold detect_checklist_type, classify.
  rewrite !contains_lower by reflexivity.
  destruct (contains_ci "prisma" content
            && (contains_ci "systematic review" content
                || contains_ci "meta-analysis" content)); [reflexivity|].
  destruct (contains_ci "stard" content
            && contains_ci "diagnostic accuracy" content); [reflexivity|].
  destruct (contains_ci "consort" content
            && contains_ci "randomized" content); [reflexivity|].
  destruct (contains "::" content || Nat.ltb 5 (count_char "#" content));
    reflexivity.
Qed.

(** ** The parsers *)

Lemma process_prisma_scenario :
  process_prisma_checklist scenario = [methods; results].
Proof. vm_compute. reflexivity. Qed.

(** C1, as the code has it: under the PRISMA parser the scenario text
    yields the sections "Methods" and "Results", in this order, and the item
    texts keep what follows the first '#', number included. *)
Theorem prisma_scenario_outline :
  outline (process_prisma_checklist scenario)
  = [("Methods", ["1 Study design"; "2 Setting"]);
     ("Results", ["3 Outcomes"])].
Proof. rewrite process_prisma_scenario. reflexivity. Qed.

(** C1, as stated, fails: the item texts are not the bare titles. *)
Lemma prisma_scenario_not_bare_titles :
  outline (process_prisma_checklist scenario)
  <> [("Methods", ["Study design"; "Setting"]); ("Results", ["Outcomes"])].
Proof. rewrite process_prisma_scenario. discriminate. Qed.

(** What the generic and custom parsers keep true of their sections: any
    property of a freshly flushed section with a non-empty buffer. *)
Section FlushInvariant.

Variable P : ChecklistSection -> Prop.
Hypothesis P_flush :
  forall name its, its <> [] -> P (mkSection name its DEFAULT_GUIDANCE).

Lemma generic_step_invariant (st : builder) (raw_line : string) :
  Forall P (b_sections st) ->
  Forall P (b_sections (generic_step st raw_line)).
Proof.
  intros H. unfold generic_step.
  destruct (is_empty (strip raw_line)); [exact H|].
  destruct (is_section_header (strip raw_line)); [|exact H].
  destruct (nonempty (b_items st)) eqn:E; simpl; [|exact H].
  apply Forall_app; split; [exact H|].
  constructor; [|constructor]. apply P_flush, nonempty_true, E.
Qed.

Lemma custom_step_invariant (st : builder) (raw_line : string) :
  Forall P (b_sections st) ->
  Forall P (b_sections (custom_step st raw_line)).
Proof.
  intros H. unfold custom_step.
  destruct (is_empty (strip raw_line) || startswith (strip raw_line) "#");
    [exact H|].
  destruct (contains "::" (strip raw_line)); [|exact H].
  destruct (map strip (split1 "::" (strip raw_line)))
    as [|item_text [|instruction [|? ?]]]; try exact H.
  destruct (contains ":" item_text
            && Nat.ltb (String.length (nth 0 (split1 ":" item_text) "")) 30);
    [|exact H].
  destruct (nonempty (b_items st) && truthy (b_current_section st)) eqn:E;
    simpl; [|exact H].
  apply andb_true_iff in E. destruct E as [E _].
  apply Forall_app; split; [exact H|].
  constructor; [|constructor]. apply P_flush, nonempty_true, E.
Qed.

Lemma add_last_section_invariant (st : builder) :
  Forall P (b_sections st) -> Forall P (add_last_section st).
Proof.
  intros H. unfold add_last_section.
  destruct (nonempty (b_items st)) eqn:E; [|exact H].
  apply Forall_app; split; [exact H|].
  constructor; [|constructor]. apply P_flush, nonempty_true, E.
Qed.

Lemma process_generic_invariant (content : string) :
  Forall P (process_generic_checklist content).
Proof.
  apply add_last_section_invariant.
  apply (fold_left_invariant _ _ (fun st => Forall P (b_sections st))).
  - apply generic_step_invariant.
  - constructor.
Qed.

Lemma process_custom_invariant (content : string) :
  Forall P (process_custom_checklist content).
Proof.
  apply add_last_section_invariant.
  apply (fold_left_invariant _ _ (fun st => Forall P (b_sections st))).
  - apply custom_step_invariant.
  - constructor.
Qed.

End FlushInvariant.

(** What the PRISMA parser keeps true of its sections: any property of a
    fresh section without items that appending a bare item preserves. *)
Section PrismaInvariant.

Variable P : ChecklistSection -> Prop.
Hypothesis P_open : forall name, P (mkSection name [] DEFAULT_GUIDANCE).
Hypothesis P_append :
  forall s text,
    P s -> P (mkSection (section s) (items s ++ [Bare text]) (guidance s)).

Lemma append_to_last_invariant (sections : list ChecklistSection)
    (text : string) :
  Forall P sections -> Forall P (append_to_last sections (Bare text)).
Proof.
  induction sections as [|s rest IH]; intros H; [constructor|].
  inversion H as [|? ? Hs Hrest]; subst.
  destruct rest as [|s' rest'].
  - simpl. constructor; [apply P_append, Hs | constructor].
  - change (Forall P (s :: append_to_last (s' :: rest') (Bare text))).
    constructor; [exact Hs | apply IH, Hrest].
Qed.

Lemma prisma_step_invariant (st : list ChecklistSection * option string)
    (raw_line : string) :
  Forall P (fst st) -> Forall P (fst (prisma_step st raw_line)).
Proof.
  destruct st as [sections current]. cbn [fst]. intros H.
  cbv beta iota zeta delta [prisma_step].
  repeat match goal with
         | |- context [if ?b then _ else _] => destruct b
         end;
    cbn [fst]; try exact H; try (apply append_to_last_invariant, H).
  apply Forall_app; split; [exact H|].
  constructor; [apply P_open | constructor].
Qed.

Lemma process_prisma_invariant (content : string) :
  Forall P (process_prisma_checklist content).
Proof.
  unfold process_prisma_checklist.
  apply (fold_left_invariant _ _ (fun st => Forall P (fst st))).
  - apply prisma_step_invariant.
  - constructor.
Qed.

End PrismaInvariant.

Lemma parsed_guidance_is_default (content : string) :
  Forall (fun s => guidance s = DEFAULT_GUIDANCE)
    (process_checklist_content content).
Proof.
  unfold process_checklist_content, process_as,
    process_stard_checklist, process_consort_checklist.
  repeat match goal with
         | |- context [if ?b then _ else _] => destruct b
         end;
    solve [ apply process_prisma_invariant; intros; reflexivity || assumption
          | apply process_generic_invariant; intros; reflexivity
          | apply process_custom_invariant; intros; reflexivity ].
Qed.

(** C2, as the code has it: for every text and every variant other than
    PRISMA (STARD, CONSORT, custom, generic), each section of the parsed
    document holds at least one item. *)
Theorem sections_have_items (checklist_type content : string) :
  checklist_type <> "PRISMA" ->
  Forall has_items (process_as checklist_type content).
Proof.
  intros Hty. unfold process_as.
  destruct (String.eqb checklist_type "PRISMA") eqn:E.
  - apply String.eqb_eq in E. contradiction.
  - unfold process_stard_checklist, process_consort_checklist.
    destruct (String.eqb checklist_type "STARD");
      [apply process_generic_invariant; intros ? ? H; exact H|].
    destruct (String.eqb checklist_type "CONSORT");
      [apply process_generic_invariant; intros ? ? H; exact H|].
    destruct (String.eqb checklist_type "custom");
      [apply process_custom_invariant | apply process_generic_invariant];
      intros ? ? H; exact H.
Qed.

Lemma sections_have_items_witness :
  "custom" <> "PRISMA" /\ Forall has_items (process_as "custom" two_blocks).
Proof.
  split; [discriminate | apply (sections_have_items "custom"); discriminate].
Defined.

(** C2, as stated, fails: a text classified as PRISMA whose header
    "Methods" has no item under it yields a section without items. *)
Lemma prisma_section_without_items :
  detect_checklist_type prisma_header_only = "PRISMA"
  /\ ~ Forall has_items (process_as "PRISMA" prisma_header_only).
Proof.
  split; [reflexivity|].
  intros H. inversion H as [|s l Hs Hl Heq]; subst.
  apply Hs. reflexivity.
Qed.

(** ** Strings in answers *)

Lemma startswith_app (sub rest : string) : startswith (sub ++ rest) sub = true.
Proof.
  induction sub as [|c sub IH]; simpl; [destruct rest; reflexivity|].
  rewrite Ascii.eqb_refl. exact IH.
Qed.

Lemma contains_unfold (sub s : string) :
  contains sub s
  = startswith s sub
    || match s with
       | EmptyString => false
       | String _ s' => contains sub s'
       end.
Proof. destruct s; reflexivity. Qed.

Lemma contains_app (pre sub rest : string) :
  contains sub (pre ++ sub ++ rest) = true.
Proof.
  induction pre as [|c pre IH].
  - cbn [append]. rewrite contains_unfold, startswith_app. reflexivity.
  - cbn [append]. rewrite contains_unfold, IH. apply orb_true_r.
Qed.

Lemma length_take (n : nat) (s : string) :
  String.length (take n s) = Nat.min n (String.length s).
Proof.
  revert s; induction n as [|n IH]; intros [|c s]; simpl; try reflexivity.
  rewrite IH. reflexivity.
Qed.

Lemma length_rstrip (s : string) :
  String.length (rstrip s) <= String.length s.
Proof.
  induction s as [|c s IH]; [apply le_n|].
  cbn [rstrip].
  destruct (isspace c && is_empty (rstrip s)); cbn [String.length].
  - apply Nat.le_0_l.
  - apply le_n_S, IH.
Qed.

Lemma length_lstrip (s : string) :
  String.length (lstrip s) <= String.length s.
Proof.
  induction s as [|c s IH]; [apply le_n|].
  cbn [lstrip]. destruct (isspace c); [|apply le_n].
  cbn [String.length]. apply Nat.le_trans with (1 := IH).
  apply Nat.le_succ_diag_r.
Qed.

(** Trimming never makes a text longer. *)
Lemma length_strip (s : string) :
  String.length (strip s) <= String.length s.
Proof.
  unfold strip. apply Nat.le_trans with (1 := length_rstrip _).
  apply length_lstrip.
Qed.

(** A response of fewer than 100 characters passes the length test of
    [extract_section_text], which is made on the trimmed text. *)
Lemma short_response_short_text (response : string) :
  String.length response < 100 ->
  Nat.ltb (String.length (strip response)) 100 = true.
Proof.
  intros H. apply Nat.ltb_lt.
  apply Nat.le_lt_trans with (2 := H). apply length_strip.
Qed.

(** ** The resolvers, for any service *)

Section ResolverFacts.

Variable World : Type.
Variable post_generate : Payload -> World -> (Exception + string) * World.

Lemma preprocess_general_failure (sections : list ChecklistSection)
    (manuscript_text ollama_model_name : string) (w w1 : World)
    (exn : Exception) :
  post_generate (general_payload sections ollama_model_name) w
  = (inl exn, w1) ->
  preprocess_checklist post_generate sections manuscript_text
    ollama_model_name w
  = ((sections, GUIDANCE_FAILED), w1).
Proof.
  intros H. unfold preprocess_checklist, bind. rewrite H. reflexivity.
Qed.

Lemma section_guidance_loop_cons (payload : Payload)
    (sec : ChecklistSection) (rest : list ChecklistSection) (w : World) :
  section_guidance_loop post_generate payload (sec :: rest) w
  = let (r, w1) :=
      post_generate (set_prompt payload (section_prompt sec)) w in
    let (rest', w2) := section_guidance_loop post_generate payload rest w1 in
    (match r with
     | inr response => mkSection (section sec) (items sec) (strip response)
     | inl _ => sec
     end :: rest', w2).
Proof.
  cbn [section_guidance_loop]. unfold bind.
  destruct (post_generate _ w) as [r w1].
  destruct (section_guidance_loop post_generate payload rest w1).
  reflexivity.
Qed.

(** Every section comes out with the trimmed response of its own request,
    or as it went in when that request failed. *)
Lemma section_guidance_loop_outcomes (payload : Payload) (d : string)
    (sections : list ChecklistSection) :
  Forall (fun s => guidance s = d) sections ->
  forall w,
    Forall2
      (fun s' o =>
         match o with
         | Some (inr response) => guidance s' = strip response
         | _ => guidance s' = d
         end)
      (fst (section_guidance_loop post_generate payload sections w))
      (map Some (loop_outcomes post_generate payload sections w)).
Proof.
  induction 1 as [|sec rest Hsec Hrest IH]; intros w.
  - constructor.
  - rewrite section_guidance_loop_cons. cbn [loop_outcomes].
    destruct (post_generate _ w) as [r w1].
    specialize (IH w1).
    destruct (section_guidance_loop post_generate payload rest w1)
      as [rest' w2].
    cbn [fst map] in *. constructor; [|exact IH].
    destruct r; [exact Hsec | reflexivity].
Qed.

Lemma answer_loop_items (sec : ChecklistSection)
    (manuscript_text ollama_model_name general_guidance section_text : string)
    (its : list Item) (w : World) :
  map item
    (fst (answer_loop post_generate sec manuscript_text ollama_model_name
            general_guidance section_text its w))
  = map item_text_of its.
Proof.
  revert w; induction its as [|it rest IH]; intros w; [reflexivity|].
  cbn [answer_loop]. unfold bind at 1 2.
  destruct (generate_item_answer _ _ _ _ _ _ _ _ w) as [a w1].
  specialize (IH w1).
  destruct (answer_loop _ _ _ _ _ _ rest w1) as [rest' w2].
  cbn [fst map item ret] in *. unfold ret. cbn [fst map item].
  rewrite IH. reflexivity.
Qed.

Lemma section_answers_items (sec : ChecklistSection)
    (manuscript_text ollama_model_name general_guidance : string)
    (w : World) :
  map item
    (fst (generate_section_answers post_generate sec manuscript_text
            ollama_model_name general_guidance w))
  = map item_text_of (items sec).
Proof.
  unfold generate_section_answers, bind.
  destruct (extract_section_text _ _ _ _ w) as [section_text w1].
  apply answer_loop_items.
Qed.

(** C3, as the code has it: when the request for the general guidance
    fails, whatever the failure, [preprocess_checklist] returns the
    sections as they are together with the fixed fallback text, in the state
    the failed request left: no request is made for any section. *)
Theorem general_failure_returns_fallback
    (sections : list ChecklistSection)
    (manuscript_text ollama_model_name : string) (w w1 : World)
    (exn : Exception) :
  post_generate (general_payload sections ollama_model_name) w
  = (inl exn, w1) ->
  preprocess_checklist post_generate sections manuscript_text
    ollama_model_name w
  = ((sections,
      "Failed to obtain preprocessing guidance. Proceeding with default approach."),
     w1).
Proof. apply preprocess_general_failure. Qed.

(** C6, as the code has it: after guidance resolution of a parsed
    document, a section whose request failed, or was never made, keeps the
    parse-time default guidance, which is not empty; a section whose request
    succeeded holds the trimmed response, whatever it is. *)
Theorem guidance_after_resolution
    (content manuscript_text ollama_model_name : string) (w : World) :
  DEFAULT_GUIDANCE
  = "Extract information related to this section from the manuscript."
  /\ DEFAULT_GUIDANCE <> ""
  /\ Forall2
       (fun s' o =>
          match o with
          | Some (inr response) => guidance s' = strip response
          | _ => guidance s' = DEFAULT_GUIDANCE
          end)
       (fst (fst (preprocess_checklist post_generate
                    (process_checklist_content content) manuscript_text
                    ollama_model_name w)))
       (guidance_outcomes post_generate (process_checklist_content content)
          ollama_model_name w).
Proof.
  split; [reflexivity|]. split; [discriminate|].
  pose proof (parsed_guidance_is_default content) as Hdef.
  set (sections := process_checklist_content content) in *.
  unfold guidance_outcomes.
  destruct (post_generate (general_payload sections ollama_model_name) w)
    as [[exn|response] w1] eqn:E.
  - rewrite (preprocess_general_failure _ manuscript_text _ _ _ _ E).
    cbn [fst]. clear E. induction Hdef; constructor; assumption.
  - unfold preprocess_checklist, bind. rewrite E.
    pose proof (section_guidance_loop_outcomes
                  (general_payload sections ollama_model_name) _ _ Hdef w1)
      as Hloop.
    destruct (section_guidance_loop post_generate _ sections w1)
      as [sections' w2].
    exact Hloop.
Qed.

Lemma answer_loop_cons (sec : ChecklistSection)
    (manuscript_text ollama_model_name general_guidance section_text : string)
    (it : Item) (rest : list Item) (w : World) :
  answer_loop post_generate sec manuscript_text ollama_model_name
    general_guidance section_text (it :: rest) w
  = let (a, w1) :=
      generate_item_answer post_generate (item_text_of it)
        (instruction_of it) (guidance sec) general_guidance manuscript_text
        section_text ollama_model_name w in
    let (rest', w2) :=
      answer_loop post_generate sec manuscript_text ollama_model_name
        general_guidance section_text rest w1 in
    (mkAnswer (item_text_of it) a :: rest', w2).
Proof.
  cbn [answer_loop]. unfold bind.
  destruct (generate_item_answer _ _ _ _ _ _ _ _ w) as [a w1].
  destruct (answer_loop _ _ _ _ _ _ rest w1). reflexivity.
Qed.

Lemma item_failure_answer
    (item_text instruction section_guidance general_guidance manuscript_text
       section_text ollama_model_name : string)
    (w w1 : World) (exn : Exception) :
  post_generate
    (item_payload item_text instruction section_guidance manuscript_text
       section_text ollama_model_name) w
  = (inl exn, w1) ->
  generate_item_answer post_generate item_text instruction section_guidance
    general_guidance manuscript_text section_text ollama_model_name w
  = (error_answer exn item_text, w1).
Proof.
  intros H. unfold generate_item_answer, bind. rewrite H. reflexivity.
Qed.

(** C9: in [extract_section_text], when the first request succeeds with a
    text that, trimmed, has fewer than 100 characters, the manuscript has
    more than 5000 and the second request fails, the result is the first
    1500 characters of the manuscript, in the state the second request
    left; it is not the text of the first response. *)
Theorem retry_failure_discards_first_result (sec : ChecklistSection)
    (manuscript_text ollama_model_name response : string)
    (w w1 w2 : World) (exn : Exception) :
  post_generate (extraction_payload sec manuscript_text ollama_model_name) w
  = (inr response, w1) ->
  Nat.ltb (String.length (strip response)) 100 = true ->
  Nat.ltb 5000 (String.length manuscript_text) = true ->
  post_generate
    (set_prompt (extraction_payload sec manuscript_text ollama_model_name)
       (replace (take 5000 manuscript_text)
          (take 5000 (drop 5000 manuscript_text))
          (extraction_prompt sec manuscript_text))) w1
  = (inl exn, w2) ->
  extract_section_text post_generate sec manuscript_text ollama_model_name w
  = (take 1500 manuscript_text, w2)
  /\ String.length (take 1500 manuscript_text) = 1500
  /\ take 1500 manuscript_text <> strip response.
Proof.
  intros H1 Hshort Hlong H2.
  assert (Hlen : String.length (take 1500 manuscript_text) = 1500).
  { rewrite length_take. apply Nat.ltb_lt in Hlong.
    apply Nat.min_l. apply Nat.lt_le_incl.
    apply Nat.le_lt_trans with (m := 5000); [|exact Hlong].
    apply Nat.leb_le. vm_compute. reflexivity. }
  split; [|split; [exact Hlen|]].
  - unfold extract_section_text, bind. rewrite H1.
    rewrite Hshort, Hlong. cbn [andb].
    change (prompt (extraction_payload sec manuscript_text ollama_model_name))
      with (extraction_prompt sec manuscript_text).
    rewrite H2. reflexivity.
  - intros Heq. apply Nat.ltb_lt in Hshort.
    rewrite <- Heq, Hlen in Hshort.
    apply Nat.ltb_lt in Hshort. vm_compute in Hshort. discriminate Hshort.
Qed.

Lemma answer_loop_item_answers (sec : ChecklistSection)
    (manuscript_text ollama_model_name general_guidance section_text : string)
    (its : list Item) :
  forall w,
    item_answers post_generate (guidance sec) general_guidance
      manuscript_text section_text ollama_model_name its w
      (fst (answer_loop post_generate sec manuscript_text ollama_model_name
              general_guidance section_text its w))
      (snd (answer_loop post_generate sec manuscript_text ollama_model_name
              general_guidance section_text its w)).
Proof.
  induction its as [|it rest IH]; intros w; [constructor|].
  rewrite answer_loop_cons.
  destruct (generate_item_answer post_generate (item_text_of it)
              (instruction_of it) (guidance sec) general_guidance
              manuscript_text section_text ollama_model_name w)
    as [a w1] eqn:E.
  specialize (IH w1).
  destruct (answer_loop post_generate sec manuscript_text ollama_model_name
              general_guidance section_text rest w1) as [rest' w2].
  cbn [fst snd] in *.
  destruct it as [text|text instruction];
    cbn [item_text_of instruction_of] in *.
  - eapply answers_bare; eassumption.
  - eapply answers_dict; eassumption.
Qed.

(** C10: the item-answer resolver handles both item shapes.  The PRISMA
    parser stores bare strings only; and for every section and every
    service, [generate_section_answers] answers the items of the section in
    order, after the extraction of the section text and with that text: a
    bare string with the instruction "Answer based on the manuscript
    text.", a dict with the instruction it stores, each record carrying the
    text of its item with the answer of its own request. *)
Theorem answers_for_both_item_shapes :
  (forall content,
      Forall (fun s => Forall is_bare (items s))
        (process_prisma_checklist content))
  /\ (forall sec manuscript_text ollama_model_name general_guidance w,
         item_answers post_generate (guidance sec) general_guidance
           manuscript_text
           (fst (extract_section_text post_generate sec manuscript_text
                   ollama_model_name w))
           ollama_model_name (items sec)
           (snd (extract_section_text post_generate sec manuscript_text
                   ollama_model_name w))
           (fst (generate_section_answers post_generate sec manuscript_text
                   ollama_model_name general_guidance w))
           (snd (generate_section_answers post_generate sec manuscript_text
                   ollama_model_name general_guidance w))).
Proof.
  split.
  - intros content. apply process_prisma_invariant.
    + intros name. constructor.
    + intros s text Hs. cbn [items]. apply Forall_app; split; [exact Hs|].
      constructor; [exact I | constructor].
  - intros. unfold generate_section_answers, bind.
    destruct (extract_section_text post_generate sec manuscript_text
                ollama_model_name w) as [section_text w1].
    cbn [fst snd]. apply answer_loop_item_answers.
Qed.

End ResolverFacts.

(** ** Cleaning an answer *)

Lemma isspace_char_lower (c : ascii) : isspace c = isspace (char_lower c).
Proof. destruct c as [[] [] [] [] [] [] [] []]; reflexivity. Qed.

Lemma colon_char_lower (c : ascii) :
  Ascii.eqb ":" c = Ascii.eqb ":" (char_lower c).
Proof. destruct c as [[] [] [] [] [] [] [] []]; reflexivity. Qed.

Lemma starts_ci_cons (a c : ascii) (k s : string) :
  starts_ci (String a k) (String c s) = true ->
  char_lower c = char_lower a /\ starts_ci k s = true.
Proof.
  simpl. intros H. apply andb_true_iff in H. destruct H as [Hc Hk].
  apply Ascii.eqb_eq in Hc. split; [symmetry; exact Hc | exact Hk].
Qed.

Lemma startswith_empty (s : string) : startswith s "" = true.
Proof. destruct s; reflexivity. Qed.

Lemma rstrip_cons (c : ascii) (s : string) :
  isspace c = false -> rstrip (String c s) = String c (rstrip s).
Proof. intros H. cbn [rstrip]. rewrite H. reflexivity. Qed.

Lemma strip_cons (c : ascii) (s : string) :
  isspace c = false -> strip (String c s) = String c (rstrip s).
Proof.
  intros H. unfold strip. cbn [lstrip]. rewrite H. apply rstrip_cons, H.
Qed.

Lemma rstrip_idempotent (s : string) : rstrip (rstrip s) = rstrip s.
Proof.
  induction s as [|c s IH]; [reflexivity|].
  cbn [rstrip].
  destruct (isspace c && is_empty (rstrip s)) eqn:E; [reflexivity|].
  cbn [rstrip]. rewrite IH, E. reflexivity.
Qed.

Lemma lstrip_rstrip (s : string) : lstrip (rstrip s) = rstrip (lstrip s).
Proof.
  induction s as [|c s IH]; [reflexivity|].
  cbn [rstrip lstrip]. destruct (isspace c) eqn:Ec.
  - rewrite <- IH. destruct (rstrip s) eqn:Er; cbn [andb is_empty lstrip];
      [reflexivity|].
    rewrite Ec. reflexivity.
  - cbn [andb lstrip rstrip]. rewrite Ec. reflexivity.
Qed.

Lemma strip_rstrip (s : string) : strip (rstrip s) = strip s.
Proof. unfold strip. rewrite lstrip_rstrip. apply rstrip_idempotent. Qed.

Lemma find_first_colon_miss (c : ascii) (s : string) :
  Ascii.eqb ":" c = false ->
  find_first ":" (String c s)
  = match find_first ":" s with
    | Some (b, a) => Some (String c b, a)
    | None => None
    end.
Proof.
  intros H. cbn [find_first startswith]. rewrite H. reflexivity.
Qed.

Lemma find_first_colon_hit (s : string) :
  find_first ":" (String ":" s) = Some (EmptyString, s).
Proof.
  cbn [find_first startswith]. rewrite startswith_empty. reflexivity.
Qed.

(** What is known of a character whose lower-case form is that of a
    letter of the keyword. *)
Lemma letter_of_keyword (c k : ascii) :
  char_lower c = char_lower k ->
  isspace c = isspace (char_lower k)
  /\ Ascii.eqb ":" c = Ascii.eqb ":" (char_lower k).
Proof.
  intros H. rewrite <- H. split;
    [apply isspace_char_lower | apply colon_char_lower].
Qed.

(** Reads one more letter of the keyword off the text. *)
Ltac next_letter H raw c Hc :=
  destruct raw as [|c raw]; [discriminate H|];
  apply starts_ci_cons in H; destruct H as [Hc H].

Lemma cleanup_answer_prefix (raw : string) :
  starts_ci "answer:" raw = true ->
  cleanup (strip raw)
  = (let cleaned := strip (after_first_colon raw) in
     if is_empty cleaned then NOT_FOUND else cleaned).
Proof.
  intros H.
  pose proof H as Hraw.
  next_letter H raw c0 H0. next_letter H raw c1 H1. next_letter H raw c2 H2.
  next_letter H raw c3 H3. next_letter H raw c4 H4. next_letter H raw c5 H5.
  next_letter H raw c6 H6. rename raw into rest. clear H.
  apply letter_of_keyword in H0, H1, H2, H3, H4, H5, H6.
  destruct H0 as [S0 K0], H1 as [S1 K1], H2 as [S2 K2], H3 as [S3 K3],
    H4 as [S4 K4], H5 as [S5 K5], H6 as [S6 K6].
  change (isspace (char_lower _)) with false in S0, S1, S2, S3, S4, S5, S6.
  change (Ascii.eqb ":" (char_lower _)) with false in K0, K1, K2, K3, K4, K5.
  change (Ascii.eqb ":" (char_lower _)) with true in K6.
  apply Ascii.eqb_eq in K6.
  subst c6.
  assert (Hfind : forall tail,
             find_first ":"
               (String c0 (String c1 (String c2 (String c3 (String c4
                  (String c5 (String ":" tail)))))))
             = Some (String c0 (String c1 (String c2 (String c3 (String c4
                       (String c5 EmptyString))))), tail)).
  { intros tail.
    rewrite (find_first_colon_miss c0), (find_first_colon_miss c1),
      (find_first_colon_miss c2), (find_first_colon_miss c3),
      (find_first_colon_miss c4), (find_first_colon_miss c5),
      find_first_colon_hit by assumption.
    reflexivity. }
  rewrite (strip_cons c0), (rstrip_cons c1), (rstrip_cons c2),
    (rstrip_cons c3), (rstrip_cons c4), (rstrip_cons c5), (rstrip_cons ":")
    by assumption.
  unfold cleanup, after_first_colon, split1.
  rewrite !Hfind.
  rewrite (startswith_lower "answer:" eq_refl).
  assert (Hstart : forall tail tail',
             starts_ci "answer:"
               (String c0 (String c1 (String c2 (String c3 (String c4
                  (String c5 (String ":" tail)))))))
             = starts_ci "answer:"
                 (String c0 (String c1 (String c2 (String c3 (String c4
                    (String c5 (String ":" tail')))))))).
  { intros tail tail'. cbn [starts_ci]. destruct tail, tail'; reflexivity. }
  rewrite (Hstart (rstrip rest) rest), Hraw.
  cbn [is_empty orb last]. rewrite strip_rstrip. reflexivity.
Qed.

(** C7: when the raw response is empty or starts with "answer:", whatever
    the case of the letters, the answer is what follows the first ':',
    trimmed, or the fixed text when nothing is left; the response
    "Answer: Yes, in section 3" becomes "Yes, in section 3". *)
Theorem answer_post_processing (World : Type)
    (post_generate : Payload -> World -> (Exception + string) * World)
    (item_text instruction section_guidance general_guidance manuscript_text
       section_text ollama_model_name raw : string)
    (w w1 : World) :
  post_generate
    (item_payload item_text instruction section_guidance manuscript_text
       section_text ollama_model_name) w
  = (inr raw, w1) ->
  raw = "" \/ starts_ci "answer:" raw = true ->
  generate_item_answer post_generate item_text instruction section_guidance
    general_guidance manuscript_text section_text ollama_model_name w
  = (let cleaned := strip (after_first_colon raw) in
     if is_empty cleaned
     then "Information not found in the provided text snippet."
     else cleaned, w1)
  /\ cleanup (strip "Answer: Yes, in section 3") = "Yes, in section 3".
Proof.
  intros Hpost Hraw. split; [|reflexivity].
  unfold generate_item_answer, bind. rewrite Hpost. unfold ret. f_equal.
  destruct Hraw as [Hraw|Hraw].
  - subst raw. reflexivity.
  - apply cleanup_answer_prefix, Hraw.
Qed.

(** ** Custom checklists, line by line *)

Lemma find_first_unfold (sep s : string) :
  find_first sep s
  = if startswith s sep
    then Some (EmptyString, drop (String.length sep) s)
    else match s with
         | EmptyString => None
         | String c s' =>
             match find_first sep s' with
             | Some (b, a) => Some (String c b, a)
             | None => None
             end
         end.
Proof. destruct s; reflexivity. Qed.

Lemma contains_find_first (sep s : string) :
  contains sep s = true -> exists b a, find_first sep s = Some (b, a).
Proof.
  induction s as [|c s IH]; rewrite contains_unfold, find_first_unfold;
    destruct (startswith _ sep); intros H; eauto; try discriminate H.
  destruct (IH H) as [b [a E]]. rewrite E. eauto.
Qed.

Lemma custom_step_skipped (st : builder) (raw_line : string) :
  custom_skipped raw_line = true -> custom_step st raw_line = st.
Proof.
  unfold custom_skipped, custom_step. intros H. rewrite H. reflexivity.
Qed.

Lemma custom_step_line (st : builder) (raw_line : string) :
  custom_skipped raw_line = false ->
  custom_step st raw_line
  = match custom_header_name raw_line with
    | Some name =>
        if nonempty (b_items st) && truthy (b_current_section st)
        then mkBuilder
               (b_sections st ++
                [mkSection (b_current_section st) (b_items st)
                   DEFAULT_GUIDANCE])
               name [custom_item raw_line]
        else mkBuilder (b_sections st) name
               (b_items st ++ [custom_item raw_line])
    | None =>
        mkBuilder (b_sections st) (b_current_section st)
          (b_items st ++ [custom_item raw_line])
    end.
Proof.
  intros Hskip. unfold custom_header_name, custom_item, custom_step.
  rewrite Hskip. unfold custom_skipped in Hskip. rewrite Hskip.
  destruct (contains "::" (strip raw_line)) eqn:Hsep; [|reflexivity].
  destruct (contains_find_first _ _ Hsep) as [b [a E]].
  unfold split1. rewrite E. cbn [map nth].
  destruct (contains ":" (strip b)
            && Nat.ltb
                 (String.length
                    (nth 0 match find_first ":" (strip b) with
                           | Some (b0, a0) => [b0; a0]
                           | None => [strip b]
                           end "")) 30); [|reflexivity].
  destruct (nonempty (b_items st) && truthy (b_current_section st));
    reflexivity.
Qed.

Lemma custom_header_not_skipped (raw_line name : string) :
  custom_header_name raw_line = Some name -> custom_skipped raw_line = false.
Proof.
  unfold custom_header_name.
  destruct (custom_skipped raw_line); [discriminate | reflexivity].
Qed.

(** Lines that open no section only add their items to the buffer. *)
Lemma fold_custom_body (body : list string) :
  Forall (fun l => custom_header_name l = None) body ->
  forall st,
    fold_left custom_step body st
    = mkBuilder (b_sections st) (b_current_section st)
        (b_items st ++ custom_items body).
Proof.
  induction 1 as [|l body Hl Hbody IH]; intros st.
  - unfold custom_items. cbn [fold_left filter map].
    rewrite app_nil_r. destruct st; reflexivity.
  - cbn [fold_left]. rewrite IH. unfold custom_items. cbn [filter].
    destruct (custom_skipped l) eqn:Hskip; cbn [negb].
    + rewrite (custom_step_skipped _ _ Hskip). reflexivity.
    + rewrite (custom_step_line _ _ Hskip), Hl.
      cbn [b_sections b_current_section b_items map].
      rewrite <- app_assoc. reflexivity.
Qed.

Lemma process_custom_two_blocks (content h1 h2 name1 name2 : string)
    (body1 body2 : list string) :
  split_char "010" content = h1 :: body1 ++ h2 :: body2 ->
  custom_header_name h1 = Some name1 ->
  custom_header_name h2 = Some name2 ->
  Forall (fun l => custom_header_name l = None) body1 ->
  Forall (fun l => custom_header_name l = None) body2 ->
  process_custom_checklist content
  = if truthy name1
    then [mkSection name1 (custom_item h1 :: custom_items body1)
            DEFAULT_GUIDANCE;
          mkSection name2 (custom_item h2 :: custom_items body2)
            DEFAULT_GUIDANCE]
    else [mkSection name2
            (custom_item h1 :: custom_items body1
             ++ custom_item h2 :: custom_items body2)
            DEFAULT_GUIDANCE].
Proof.
  intros Hlines Hh1 Hh2 Hb1 Hb2. unfold process_custom_checklist.
  rewrite Hlines. cbn [fold_left]. rewrite fold_left_app. cbn [fold_left].
  rewrite (custom_step_line _ h1 (custom_header_not_skipped _ _ Hh1)), Hh1.
  cbn [b_items nonempty andb b_sections app].
  rewrite (fold_custom_body body1 Hb1).
  cbn [b_sections b_current_section b_items app].
  rewrite (custom_step_line _ h2 (custom_header_not_skipped _ _ Hh2)), Hh2.
  cbn [b_sections b_current_section b_items nonempty andb app].
  destruct (truthy name1).
  - rewrite (fold_custom_body body2 Hb2). reflexivity.
  - rewrite (fold_custom_body body2 Hb2). unfold add_last_section.
    cbn [b_sections b_current_section b_items app].
    rewrite <- app_assoc. cbn [app].
    destruct (custom_items body1); reflexivity.
Qed.

(** C5, as the code has it: a custom checklist made of two header lines,
    each followed by lines that open no section, where the first header
    names its section with a non-empty prefix, is parsed into exactly two
    sections; each is named by its header's prefix and holds the item of the
    header line itself followed by the items of the lines up to the next
    header. *)
Theorem custom_two_blocks (content h1 h2 name1 name2 : string)
    (body1 body2 : list string) :
  split_char "010" content = h1 :: body1 ++ h2 :: body2 ->
  custom_header_name h1 = Some name1 ->
  custom_header_name h2 = Some name2 ->
  Forall (fun l => custom_header_name l = None) body1 ->
  Forall (fun l => custom_header_name l = None) body2 ->
  name1 <> "" ->
  process_custom_checklist content
  = [mkSection name1 (custom_item h1 :: custom_items body1) DEFAULT_GUIDANCE;
     mkSection name2 (custom_item h2 :: custom_items body2) DEFAULT_GUIDANCE].
Proof.
  intros Hlines Hh1 Hh2 Hb1 Hb2 Hname.
  rewrite (process_custom_two_blocks _ _ _ _ _ _ _ Hlines Hh1 Hh2 Hb1 Hb2).
  destruct name1; [contradiction Hname; reflexivity | reflexivity].
Qed.

(** ** Worked examples *)

Lemma custom_two_blocks_witness :
  custom_header_name "Methods: design :: Describe the design."
  = Some "Methods"
  /\ custom_header_name "Results: outcomes :: List the outcomes."
     = Some "Results"
  /\ "Methods" <> ""
  /\ process_custom_checklist two_blocks
     = [mkSection "Methods"
          [Dict "Methods: design" "Describe the design.";
           Dict "Setting" "Answer based on the manuscript text."]
          DEFAULT_GUIDANCE;
        mkSection "Results"
          [Dict "Results: outcomes" "List the outcomes.";
           Dict "Harms" "Report the harms."]
          DEFAULT_GUIDANCE].
Proof.
  split; [reflexivity|]. split; [reflexivity|]. split; [discriminate|].
  apply (custom_two_blocks two_blocks
           "Methods: design :: Describe the design."
           "Results: outcomes :: List the outcomes."
           "Methods" "Results" ["Setting"] ["Harms :: Report the harms."]).
  - reflexivity.
  - reflexivity.
  - reflexivity.
  - constructor; [reflexivity | constructor].
  - constructor; [reflexivity | constructor].
  - discriminate.
Defined.

(** C5, as stated, fails: the first header line starts with a colon, so
    its prefix is empty (shorter than 30 characters); the parser does not
    close that block and returns one section. *)
Lemma unnamed_first_block_one_section :
  split_char "010" unnamed_first_block
  = ": design :: Describe the design."
    :: ["Setting"]
    ++ "Results: outcomes :: List the outcomes."
       :: ["Harms :: Report the harms."]
  /\ custom_header_name ": design :: Describe the design." = Some ""
  /\ custom_header_name "Results: outcomes :: List the outcomes."
     = Some "Results"
  /\ Forall (fun l => custom_header_name l = None) ["Setting"]
  /\ Forall (fun l => custom_header_name l = None)
       ["Harms :: Report the harms."]
  /\ List.length (process_custom_checklist unnamed_first_block) <> 2.
Proof.
  repeat split; try (constructor; [reflexivity | constructor]).
  vm_compute. discriminate.
Qed.

Lemma general_failure_returns_fallback_witness :
  let w := Scripted.start [inl (ConnectionError "Connection refused")] in
  let w1 := Scripted.mkWorld [] [general_payload [methods; results] "llama3"] in
  Scripted.post_generate (general_payload [methods; results] "llama3") w
  = (inl (ConnectionError "Connection refused"), w1)
  /\ preprocess_checklist Scripted.post_generate [methods; results]
       "The manuscript." "llama3" w
     = (([methods; results],
         "Failed to obtain preprocessing guidance. Proceeding with default approach."),
        w1).
Proof.
  intros w w1. split; [reflexivity|].
  apply (general_failure_returns_fallback Scripted.World
           Scripted.post_generate [methods; results] "The manuscript."
           "llama3" w w1 (ConnectionError "Connection refused")).
  reflexivity.
Defined.

(** C3, as stated, fails: after a failed general request the service has
    been sent that one request only, not one more per section. *)
Lemma general_failure_skips_sections :
  let w := Scripted.start [inl (ConnectionError "Connection refused")] in
  let w' :=
    snd (preprocess_checklist Scripted.post_generate [methods; results]
           "The manuscript." "llama3" w) in
  map prompt (Scripted.sent w') = [general_prompt ["Methods"; "Results"]]
  /\ map prompt (Scripted.sent w')
     <> general_prompt ["Methods"; "Results"]
        :: map section_prompt [methods; results].
Proof.
  intros w w'. split; [reflexivity|].
  intros H. apply (f_equal (@List.length string)) in H.
  vm_compute in H. discriminate H.
Qed.

(** C6, as stated, fails: a request that succeeds with a blank response
    leaves the section with empty guidance. *)
Lemma blank_response_empties_guidance :
  let w :=
    Scripted.start
      [inr "Read each part in turn."; inr "Look at the design."; inr "   "] in
  let sections' :=
    fst (fst (preprocess_checklist Scripted.post_generate
                (process_checklist_content scenario) "The manuscript."
                "llama3" w)) in
  map section sections' = ["Methods"; "Results"]
  /\ map guidance sections' = ["Look at the design."; ""]
  /\ ~ Forall (fun s => guidance s <> "") sections'.
Proof.
  intros w sections'.
  assert (H : map guidance sections' = ["Look at the design."; ""])
    by (vm_compute; reflexivity).
  split; [vm_compute; reflexivity|]. split; [exact H|].
  intros Hall.
  assert (Hmap : Forall (fun g => g <> "") (map guidance sections')).
  { apply Forall_map. exact Hall. }
  rewrite H in Hmap.
  inversion Hmap as [|? ? _ Hrest]; subst.
  inversion Hrest as [|? ? Hempty _]; subst.
  apply Hempty. reflexivity.
Qed.

Lemma answer_post_processing_witness :
  let p :=
    item_payload "3 Outcomes" DEFAULT_INSTRUCTION DEFAULT_GUIDANCE
      "The manuscript." "The results." "llama3" in
  let w := Scripted.start [inr "Answer: Yes, in section 3"] in
  Scripted.post_generate p w
  = (inr "Answer: Yes, in section 3", Scripted.mkWorld [] [p])
  /\ ("Answer: Yes, in section 3" = ""
      \/ starts_ci "answer:" "Answer: Yes, in section 3" = true)
  /\ fst (generate_item_answer Scripted.post_generate "3 Outcomes"
            DEFAULT_INSTRUCTION DEFAULT_GUIDANCE "Read each part in turn."
            "The manuscript." "The results." "llama3" w)
     = "Yes, in section 3".
Proof.
  intros p w.
  assert (Hpost : Scripted.post_generate p w
                  = (inr "Answer: Yes, in section 3",
                     Scripted.mkWorld [] [p])) by reflexivity.
  assert (Hraw : "Answer: Yes, in section 3" = ""
                 \/ starts_ci "answer:" "Answer: Yes, in section 3" = true)
    by (right; reflexivity).
  split; [exact Hpost|]. split; [exact Hraw|].
  rewrite (proj1 (answer_post_processing Scripted.World
                    Scripted.post_generate "3 Outcomes" DEFAULT_INSTRUCTION
                    DEFAULT_GUIDANCE "Read each part in turn."
                    "The manuscript." "The results." "llama3"
                    "Answer: Yes, in section 3" w
                    (Scripted.mkWorld [] [p]) Hpost Hraw)).
  reflexivity.
Defined.

(** C8: the answers the [except] clauses of [generate_item_answer]
    return.  The clauses for a connection failure, for another failure of
    the request and for a JSON decoding failure name the item; the last
    clause, for any other exception, returns "Error generating answer: "
    followed by the cause, so that for the item "3 Outcomes" and an
    unexpected failure "boom" the answer does not name the item. *)
Theorem unexpected_failure_answer_omits_item :
  (forall e item_text,
      contains item_text (error_answer (ConnectionError e) item_text) = true)
  /\ (forall e item_text,
         contains item_text (error_answer (RequestException e) item_text)
         = true)
  /\ (forall e item_text,
         contains item_text (error_answer (JSONDecodeError e) item_text)
         = true)
  /\ (forall e item_text,
         error_answer (OtherException e) item_text
         = "Error generating answer: " ++ e)
  /\ (let w := Scripted.start [inl (OtherException "boom")] in
      let a :=
        fst (generate_item_answer Scripted.post_generate "3 Outcomes"
               DEFAULT_INSTRUCTION DEFAULT_GUIDANCE "Read each part in turn."
               "The manuscript." "The results." "llama3" w) in
      a = "Error generating answer: boom"
      /\ contains "3 Outcomes" a = false).
Proof.
  split; [intros; cbn [error_answer]; apply contains_app|].
  split; [intros; cbn [error_answer]; apply contains_app|].
  split; [intros; cbn [error_answer]; apply contains_app|].
  split; [reflexivity|]. split; reflexivity.
Qed.

Lemma retry_failure_discards_first_result_witness :
  let p := extraction_payload methods long_manuscript "llama3" in
  let p' :=
    set_prompt p
      (replace (take 5000 long_manuscript)
         (take 5000 (drop 5000 long_manuscript))
         (extraction_prompt methods long_manuscript)) in
  let w :=
    Scripted.start [inr "Too short."; inl (RequestException "504 Timeout")] in
  let w1 :=
    Scripted.mkWorld [inl (RequestException "504 Timeout")] [p] in
  let w2 := Scripted.mkWorld [] [p; p'] in
  Scripted.post_generate p w = (inr "Too short.", w1)
  /\ Nat.ltb (String.length (strip "Too short.")) 100 = true
  /\ Nat.ltb 5000 (String.length long_manuscript) = true
  /\ Scripted.post_generate p' w1
     = (inl (RequestException "504 Timeout"), w2)
  /\ extract_section_text Scripted.post_generate methods long_manuscript
       "llama3" w
     = (take 1500 long_manuscript, w2).
Proof.
  intros p p' w w1 w2.
  assert (H1 : Scripted.post_generate p w = (inr "Too short.", w1))
    by reflexivity.
  assert (Hshort : Nat.ltb (String.length (strip "Too short.")) 100 = true)
    by reflexivity.
  assert (Hlong : Nat.ltb 5000 (String.length long_manuscript) = true)
    by (vm_compute; reflexivity).
  assert (H2 : Scripted.post_generate p' w1
               = (inl (RequestException "504 Timeout"), w2))
    by reflexivity.
  repeat (split; [assumption|]).
  apply (retry_failure_discards_first_result Scripted.World
           Scripted.post_generate methods long_manuscript "llama3"
           "Too short." w w1 w2 (RequestException "504 Timeout")
           H1 Hshort Hlong H2).
Defined.

(** * Further properties of the code *)

(** ** Blank lines and single lines *)

Lemma fold_left_fixed (A B : Type) (step : A -> B -> A) (l : list B) :
  Forall (fun b => forall a, step a b = a) l ->
  forall a, fold_left step l a = a.
Proof.
  induction 1 as [|b l Hb Hl IH]; intros a; cbn [fold_left];
    [reflexivity | rewrite Hb; apply IH].
Qed.

Lemma prisma_step_blank (st : list ChecklistSection * option string)
    (raw_line : string) :
  strip raw_line = "" -> prisma_step st raw_line = st.
Proof.
  intros H. destruct st as [sections current].
  cbv beta iota zeta delta [prisma_step]. rewrite H. reflexivity.
Qed.

Lemma generic_step_blank (st : builder) (raw_line : string) :
  strip raw_line = "" -> generic_step st raw_line = st.
Proof. intros H. unfold generic_step. rewrite H. reflexivity. Qed.

Lemma custom_step_blank (st : builder) (raw_line : string) :
  strip raw_line = "" -> custom_step st raw_line = st.
Proof. intros H. unfold custom_step. rewrite H. reflexivity. Qed.

Lemma blank_lines_fixed (A : Type) (step : A -> string -> A)
    (lines : list string) :
  (forall a l, strip l = "" -> step a l = a) ->
  Forall (fun l => strip l = "") lines ->
  forall a, fold_left step lines a = a.
Proof.
  intros Hstep Hblank. apply fold_left_fixed.
  induction Hblank as [|l lines Hl _ IH]; constructor; [|exact IH].
  intros a. apply Hstep, Hl.
Qed.

(** X1: a text all of whose lines are blank is parsed into no section,
    whatever the checklist type. *)
Theorem blank_content_no_sections (checklist_type content : string) :
  Forall (fun l => strip l = "") (split_char "010" content) ->
  process_as checklist_type content = [].
Proof.
  intros H. unfold process_as, process_stard_checklist,
    process_consort_checklist, process_prisma_checklist,
    process_generic_checklist, process_custom_checklist.
  rewrite (blank_lines_fixed _ prisma_step _ prisma_step_blank H).
  rewrite (blank_lines_fixed _ generic_step _ generic_step_blank H).
  rewrite (blank_lines_fixed _ custom_step _ custom_step_blank H).
  repeat match goal with
         | |- context [if ?b then _ else _] => destruct b
         end; reflexivity.
Qed.

Lemma blank_content_no_sections_witness :
  Forall (fun l => strip l = "") (split_char "010" ("  " ++ nl ++ nl ++ " "))
  /\ process_as "PRISMA" ("  " ++ nl ++ nl ++ " ") = [].
Proof.
  assert (H : Forall (fun l => strip l = "")
                (split_char "010" ("  " ++ nl ++ nl ++ " ")))
    by (repeat constructor).
  split; [exact H | apply (blank_content_no_sections "PRISMA" _ H)].
Defined.

Lemma split_char_no_separator (c : ascii) (s : string) :
  count_char c s = 0 -> split_char c s = [s].
Proof.
  induction s as [|a s IH]; [reflexivity|].
  cbn [count_char split_char]. destruct (Ascii.eqb a c); [discriminate|].
  intros H. rewrite (IH H). reflexivity.
Qed.

Lemma single_line_sections (checklist_type content : string) :
  count_char "010" content = 0 ->
  List.length (process_as checklist_type content) <= 1
  /\ List.length (all_items (process_as checklist_type content)) <= 1.
Proof.
  intros H. unfold process_as, process_stard_checklist,
    process_consort_checklist, process_prisma_checklist,
    process_generic_checklist, process_custom_checklist.
  rewrite (split_char_no_separator _ _ H). cbn [fold_left].
  cbv beta iota zeta delta [prisma_step generic_step custom_step
                            add_last_section].
  repeat (cbn [b_items b_sections b_current_section nonempty truthy
               is_empty negb andb app fst];
          match goal with
          | |- context [if ?b then _ else _] => destruct b
          | |- context [match ?l with [] => _ | _ :: _ => _ end] =>
              destruct l
          end);
    cbn; split; repeat constructor.
Qed.

(** X2: a text without a newline is parsed into at most one section,
    holding at most one item, whatever the checklist type. *)
Theorem single_line_at_most_one_section (checklist_type content : string) :
  count_char "010" content = 0 ->
  List.length (process_as checklist_type content) <= 1
  /\ List.length (all_items (process_as checklist_type content)) <= 1.
Proof. apply single_line_sections. Qed.

Lemma single_line_at_most_one_section_witness :
  count_char "010" "Methods #1 Study design #2 Setting" = 0
  /\ List.length (process_as "generic" "Methods #1 Study design #2 Setting")
     <= 1.
Proof.
  split; [reflexivity|].
  apply (single_line_at_most_one_section "generic"
           "Methods #1 Study design #2 Setting" eq_refl).
Defined.

(** ** What the PRISMA parser keeps of a text *)

Lemma append_to_last_names (sections : list ChecklistSection) (it : Item) :
  map section (append_to_last sections it) = map section sections.
Proof.
  induction sections as [|s rest IH]; [reflexivity|].
  destruct rest as [|s' rest']; [reflexivity|].
  change (section s :: map section (append_to_last (s' :: rest') it)
          = section s :: map section (s' :: rest')).
  rewrite IH. reflexivity.
Qed.

Lemma append_to_last_items (sections : list ChecklistSection) (it : Item) :
  sections <> [] ->
  all_items (append_to_last sections it) = (all_items sections ++ [it])%list.
Proof.
  unfold all_items.
  induction sections as [|s rest IH]; intros Hne; [contradiction|].
  destruct rest as [|s' rest'].
  - cbn. rewrite !app_nil_r. reflexivity.
  - change ((items s ++ concat (map items (append_to_last (s' :: rest') it)))
            = ((items s ++ concat (map items (s' :: rest'))) ++ [it]))%list.
    rewrite IH by discriminate. apply app_assoc.
Qed.

Lemma append_to_last_nonempty (sections : list ChecklistSection)
    (it : Item) :
  sections <> [] -> append_to_last sections it <> [].
Proof.
  intros Hne H. apply (f_equal (map section)) in H.
  rewrite append_to_last_names in H.
  destruct sections; [contradiction | discriminate H].
Qed.

Lemma all_items_app (l1 l2 : list ChecklistSection) :
  all_items (l1 ++ l2)%list = (all_items l1 ++ all_items l2)%list.
Proof. unfold all_items. rewrite map_app. apply concat_app. Qed.

Lemma content_lines_cons (raw_line : string) (raw_lines : list string) :
  filter (fun line => negb (is_empty line)) (map strip (raw_line :: raw_lines))
  = ((if is_empty (strip raw_line) then [] else [strip raw_line])
     ++ filter (fun line => negb (is_empty line)) (map strip raw_lines))%list.
Proof. cbn [map filter]. destruct (is_empty (strip raw_line)); reflexivity. Qed.

Lemma prisma_step_names (st : list ChecklistSection * option string)
    (raw_line : string) :
  map section (fst (prisma_step st raw_line))
  = (map section (fst st)
     ++ filter is_prisma_header
          (if is_empty (strip raw_line) then [] else [strip raw_line]))%list.
Proof.
  destruct st as [sections current].
  cbv beta iota zeta delta [prisma_step]. fold (is_prisma_header (strip raw_line)).
  destruct (is_empty (strip raw_line)); cbn [fst filter];
    [symmetry; apply app_nil_r|].
  destruct (is_prisma_header (strip raw_line)).
  - cbn [fst]. rewrite map_app. reflexivity.
  - rewrite app_nil_r.
    repeat match goal with
           | |- context [if ?b then _ else _] => destruct b
           end;
      cbn [fst]; rewrite ?append_to_last_names; reflexivity.
Qed.

Lemma fold_prisma_names (raw_lines : list string) :
  forall st,
    map section (fst (fold_left prisma_step raw_lines st))
    = (map section (fst st)
       ++ filter is_prisma_header
            (filter (fun line => negb (is_empty line))
               (map strip raw_lines)))%list.
Proof.
  induction raw_lines as [|l ls IH]; intros st.
  - cbn. symmetry. apply app_nil_r.
  - cbn [fold_left]. rewrite IH, prisma_step_names, content_lines_cons.
    rewrite filter_app, app_assoc. reflexivity.
Qed.

(** X3: the sections of a PRISMA checklist are named by the lines of the
    text that match a section pattern, trimmed, one section per such line
    and in the order of the text. *)
Theorem prisma_sections_are_header_lines (content : string) :
  map section (process_prisma_checklist content)
  = filter is_prisma_header (content_lines content).
Proof. unfold process_prisma_checklist. apply fold_prisma_names. Qed.

Lemma truthy_nonempty (s : string) : is_empty s = false -> truthy s = true.
Proof. unfold truthy. intros H. rewrite H. reflexivity. Qed.

Lemma prisma_step_open (st : list ChecklistSection * option string)
    (raw_line : string) :
  section_open st ->
  section_open (prisma_step st raw_line)
  /\ all_items (fst (prisma_step st raw_line))
     = (all_items (fst st)
        ++ map prisma_item
             (filter (fun line => negb (is_prisma_header line))
                (if is_empty (strip raw_line) then []
                 else [strip raw_line])))%list.
Proof.
  destruct st as [sections [current|]]; intros [Hne Hcur];
    cbn [fst snd] in *; [|contradiction].
  cbv beta iota zeta delta [prisma_step].
  fold (is_prisma_header (strip raw_line)).
  destruct (is_empty (strip raw_line)) eqn:Hempty.
  - split; [split; assumption | symmetry; apply app_nil_r].
  - cbn [filter]. destruct (is_prisma_header (strip raw_line)); cbn [negb].
    + split.
      * split; cbn [fst snd]; [|apply truthy_nonempty, Hempty].
        intros H. apply app_eq_nil in H. destruct H as [_ H]. discriminate H.
      * cbn [fst map]. rewrite all_items_app. cbn. rewrite !app_nil_r.
        reflexivity.
    + rewrite Hcur, (truthy_nonempty _ Hempty). cbn [andb map].
      assert (Hsec : nonempty sections = true)
        by (destruct sections; [contradiction | reflexivity]).
      rewrite Hsec. unfold prisma_item.
      destruct (contains "#" (strip raw_line)); cbn [fst snd];
        (split;
         [split; [apply append_to_last_nonempty, Hne | exact Hcur]
         | apply append_to_last_items, Hne]).
Qed.

Lemma fold_prisma_open (raw_lines : list string) :
  forall st,
    section_open st ->
    all_items (fst (fold_left prisma_step raw_lines st))
    = (all_items (fst st)
       ++ map prisma_item
            (filter (fun line => negb (is_prisma_header line))
               (filter (fun line => negb (is_empty line))
                  (map strip raw_lines))))%list.
Proof.
  induction raw_lines as [|l ls IH]; intros st Hst.
  - cbn. symmetry. apply app_nil_r.
  - cbn [fold_left]. destruct (prisma_step_open st l Hst) as [Hopen Hitems].
    rewrite (IH _ Hopen), Hitems, content_lines_cons, filter_app, map_app.
    apply eq_sym, app_assoc.
Qed.

Lemma prisma_step_closed (raw_line : string) :
  is_empty (strip raw_line) = true
  \/ is_prisma_header (strip raw_line) = false ->
  prisma_step ([], None) raw_line = ([], None).
Proof.
  intros H. cbv beta iota zeta delta [prisma_step].
  fold (is_prisma_header (strip raw_line)).
  destruct (is_empty (strip raw_line)); [reflexivity|].
  destruct H as [H|H]; [discriminate H|]. rewrite H. reflexivity.
Qed.

Lemma prisma_step_first_header (raw_line : string) :
  is_empty (strip raw_line) = false ->
  is_prisma_header (strip raw_line) = true ->
  prisma_step ([], None) raw_line
  = ([mkSection (strip raw_line) [] DEFAULT_GUIDANCE], Some (strip raw_line)).
Proof.
  intros Hne H. cbv beta iota zeta delta [prisma_step].
  fold (is_prisma_header (strip raw_line)). rewrite Hne, H. reflexivity.
Qed.

Lemma fold_prisma_items (raw_lines : list string) :
  all_items (fst (fold_left prisma_step raw_lines ([], None)))
  = map prisma_item
      (filter (fun line => negb (is_prisma_header line))
         (from_first_header
            (filter (fun line => negb (is_empty line))
               (map strip raw_lines)))).
Proof.
  induction raw_lines as [|l ls IH]; [reflexivity|].
  cbn [fold_left map filter].
  destruct (is_empty (strip l)) eqn:Hempty; cbn [negb].
  - rewrite prisma_step_closed by (left; exact Hempty). exact IH.
  - cbn [from_first_header].
    destruct (is_prisma_header (strip l)) eqn:Hheader.
    + rewrite (prisma_step_first_header l Hempty Hheader).
      rewrite fold_prisma_open.
      * cbn [fst all_items map concat app filter]. rewrite Hheader.
        reflexivity.
      * split; cbn [fst snd]; [discriminate | apply truthy_nonempty, Hempty].
    + rewrite prisma_step_closed by (right; exact Hheader). exact IH.
Qed.

(** X4: the items of a PRISMA checklist are, in the order of the text,
    the non-blank lines that match no section pattern and come after the
    first line that matches one; every line before that line is dropped.
    An item is the trimmed line, or what follows its first '#', trimmed. *)
Theorem prisma_items_follow_first_header (content : string) :
  all_items (process_prisma_checklist content)
  = map prisma_item
      (filter (fun line => negb (is_prisma_header line))
         (from_first_header (content_lines content))).
Proof. unfold process_prisma_checklist. apply fold_prisma_items. Qed.

(** ** What the generic and custom parsers keep of a text *)

Lemma pending_flush (sections : list ChecklistSection) (name : string)
    (its : list Item) :
  all_items (sections ++ [mkSection name its DEFAULT_GUIDANCE])%list
  = (all_items sections ++ its)%list.
Proof. rewrite all_items_app. cbn. rewrite app_nil_r. reflexivity. Qed.

Lemma add_last_section_items (st : builder) :
  all_items (add_last_section st) = pending st.
Proof.
  unfold add_last_section, pending.
  destruct (b_items st) as [|it its] eqn:E; cbn [nonempty].
  - symmetry. apply app_nil_r.
  - apply pending_flush.
Qed.

Lemma generic_step_pending (st : builder) (raw_line : string) :
  pending (generic_step st raw_line)
  = (pending st
     ++ map (fun line => Dict line DEFAULT_INSTRUCTION)
          (filter (fun line => negb (is_section_header line))
             (if is_empty (strip raw_line) then [] else [strip raw_line])))%list.
Proof.
  unfold generic_step, pending.
  destruct (is_empty (strip raw_line)); cbn [filter map];
    [symmetry; apply app_nil_r|].
  destruct (is_section_header (strip raw_line)); cbn [negb map].
  - rewrite app_nil_r.
    destruct (nonempty (b_items st)) eqn:E;
      cbn [b_sections b_items]; [|reflexivity].
    rewrite pending_flush. apply app_nil_r.
  - cbn [b_sections b_items]. apply app_assoc.
Qed.

Lemma fold_generic_pending (raw_lines : list string) :
  forall st,
    pending (fold_left generic_step raw_lines st)
    = (pending st
       ++ map (fun line => Dict line DEFAULT_INSTRUCTION)
            (filter (fun line => negb (is_section_header line))
               (filter (fun line => negb (is_empty line))
                  (map strip raw_lines))))%list.
Proof.
  induction raw_lines as [|l ls IH]; intros st.
  - cbn. symmetry. apply app_nil_r.
  - cbn [fold_left].
    rewrite IH, generic_step_pending, content_lines_cons, filter_app, map_app.
    symmetry. apply app_assoc.
Qed.

(** X5: the generic parser loses no item and keeps their order: the items
    of all its sections, put end to end, are the non-blank lines of the text
    that do not look like a header, trimmed, each with the default
    instruction. *)
Theorem generic_items_are_plain_lines (content : string) :
  all_items (process_generic_checklist content)
  = map (fun line => Dict line "Answer based on the manuscript text.")
      (filter (fun line => negb (is_section_header line))
         (content_lines content)).
Proof.
  unfold process_generic_checklist.
  rewrite add_last_section_items, fold_generic_pending. reflexivity.
Qed.

Lemma custom_step_pending (st : builder) (raw_line : string) :
  pending (custom_step st raw_line)
  = (pending st
     ++ (if custom_skipped raw_line then [] else [custom_item raw_line]))%list.
Proof.
  destruct (custom_skipped raw_line) eqn:Hskip.
  - rewrite (custom_step_skipped _ _ Hskip). symmetry. apply app_nil_r.
  - rewrite (custom_step_line _ _ Hskip). unfold pending.
    destruct (custom_header_name raw_line) as [name|];
      [destruct (nonempty (b_items st) && truthy (b_current_section st))|];
      cbn [b_sections b_items]; rewrite ?pending_flush;
      try reflexivity; apply app_assoc.
Qed.

Lemma fold_custom_pending (raw_lines : list string) :
  forall st,
    pending (fold_left custom_step raw_lines st)
    = (pending st ++ custom_items raw_lines)%list.
Proof.
  induction raw_lines as [|l ls IH]; intros st.
  - cbn. symmetry. apply app_nil_r.
  - cbn [fold_left]. rewrite IH, custom_step_pending.
    unfold custom_items. cbn [filter].
    destruct (custom_skipped l); cbn [negb map app];
      [rewrite app_nil_r; reflexivity|].
    rewrite <- app_assoc. reflexivity.
Qed.

(** X6: the custom parser loses no item and keeps their order: the items
    of all its sections, put end to end, are the items of the lines of the
    text that are neither blank nor comments, header lines included. *)
Theorem custom_items_are_the_lines (content : string) :
  all_items (process_custom_checklist content)
  = custom_items (split_char "010" content).
Proof.
  unfold process_custom_checklist.
  rewrite add_last_section_items, fold_custom_pending. reflexivity.
Qed.

Lemma fold_left_invariant_in (A B : Type) (P : A -> Prop)
    (step : A -> B -> A) (l : list B) :
  (forall a b, In b l -> P a -> P (step a b)) ->
  forall a, P a -> P (fold_left step l a).
Proof.
  induction l as [|b l IH]; intros Hstep a Ha; cbn [fold_left]; [exact Ha|].
  apply IH.
  - intros a' b' Hin. apply Hstep. right. exact Hin.
  - apply Hstep; [left; reflexivity | exact Ha].
Qed.

Lemma in_content_lines (content raw_line : string) :
  In raw_line (split_char "010" content) ->
  is_empty (strip raw_line) = false ->
  In (strip raw_line) (content_lines content).
Proof.
  intros Hin Hne. unfold content_lines. apply filter_In. split.
  - apply in_map, Hin.
  - rewrite Hne. reflexivity.
Qed.

(** X7: every section of a generic checklist is named "General" or by a
    non-blank line of the text, trimmed, that looks like a header. *)
Theorem generic_sections_are_header_lines (content : string) :
  Forall
    (fun s =>
       section s = "General"
       \/ (In (section s) (content_lines content)
           /\ is_section_header (section s) = true))
    (process_generic_checklist content).
Proof.
  set (named := fun name : string =>
         name = "General"
         \/ (In name (content_lines content)
             /\ is_section_header name = true)).
  assert (Hfold :
            let st := fold_left generic_step (split_char "010" content)
                        (mkBuilder [] "General" []) in
            Forall (fun s => named (section s)) (b_sections st)
            /\ named (b_current_section st)).
  { apply (fold_left_invariant_in _ _
             (fun st => Forall (fun s => named (section s)) (b_sections st)
                        /\ named (b_current_section st))).
    - intros st l Hin [Hsecs Hcur]. unfold generic_step.
      destruct (is_empty (strip l)) eqn:Hempty; [split; assumption|].
      destruct (is_section_header (strip l)) eqn:Hheader;
        [|split; assumption].
      assert (Hnew : named (strip l)).
      { right. split; [apply in_content_lines; assumption | exact Hheader]. }
      destruct (nonempty (b_items st));
        cbn [b_sections b_current_section]; split; try assumption.
      apply Forall_app. split; [exact Hsecs|].
      constructor; [exact Hcur | constructor].
    - split; [constructor | left; reflexivity]. }
  destruct Hfold as [Hsecs Hcur]. unfold process_generic_checklist,
    add_last_section.
  destruct (nonempty _); [|exact Hsecs].
  apply Forall_app. split; [exact Hsecs|].
  constructor; [exact Hcur | constructor].
Qed.

(** ** Extracted text, line by line *)

Lemma count_char_app (c : ascii) (a b : string) :
  count_char c (a ++ b) = count_char c a + count_char c b.
Proof.
  induction a as [|x a IH]; [reflexivity|].
  cbn [append count_char]. rewrite IH. apply Nat.add_assoc.
Qed.

Lemma count_char_join (c : ascii) (sep : string) (l : list string) :
  count_char c sep = 0 ->
  Forall (fun s => count_char c s = 0) l ->
  count_char c (join sep l) = 0.
Proof.
  intros Hsep. induction 1 as [|s l Hs Hl IH]; [reflexivity|].
  destruct l as [|s' l']; [exact Hs|].
  change (count_char c (s ++ sep ++ join sep (s' :: l')) = 0).
  rewrite !count_char_app, Hs, Hsep, IH. reflexivity.
Qed.

Lemma split_char_nonempty (c : ascii) (s : string) :
  exists w ws, split_char c s = w :: ws.
Proof.
  induction s as [|a s [w [ws IH]]]; cbn [split_char]; [eauto|].
  destruct (Ascii.eqb a c); [eauto|]. rewrite IH. eauto.
Qed.

(** Splitting at a separator splits what is before it and what is after
    it. *)
Lemma split_char_app_sep (c : ascii) (a b : string) :
  split_char c (a ++ String c b)
  = (split_char c a ++ split_char c b)%list.
Proof.
  induction a as [|x a IH]; cbn [append split_char].
  - rewrite Ascii.eqb_refl. reflexivity.
  - rewrite IH. destruct (Ascii.eqb x c); [reflexivity|].
    destruct (split_char_nonempty c a) as [w [ws E]]. rewrite E. reflexivity.
Qed.

(** After a text that ends a line, what is added starts a new line. *)
Lemma split_char_app_closed (c : ascii) (a b : string) :
  forall L,
    split_char c a = (L ++ [EmptyString])%list ->
    split_char c (a ++ b) = (L ++ split_char c b)%list.
Proof.
  induction a as [|x a IH]; intros L H.
  - destruct L as [|l0 [|l1 L]]; try discriminate H. reflexivity.
  - cbn [append split_char] in *. destruct (Ascii.eqb x c).
    + destruct L as [|l0 L].
      * destruct (split_char_nonempty c a) as [w [ws E]].
        rewrite E in H. discriminate H.
      * cbn [app] in H. injection H as Hl0 Ha. subst l0.
        rewrite (IH _ Ha). reflexivity.
    + destruct (split_char_nonempty c a) as [w [ws E]]. rewrite E in H.
      destruct L as [|l0 L]; [discriminate H|].
      cbn [app] in H. injection H as Hl0 Hws. subst l0 ws.
      rewrite (IH (w :: L) E). reflexivity.
Qed.

Lemma join_nl_lines (paragraphs : list string) :
  paragraphs <> [] ->
  split_char "010" (join nl paragraphs)
  = flat_map (split_char "010") paragraphs.
Proof.
  induction paragraphs as [|p ps IH]; intros Hne; [contradiction|].
  destruct ps as [|p' ps'].
  - cbn [join flat_map]. symmetry. apply app_nil_r.
  - change (split_char "010" (p ++ String "010" (join nl (p' :: ps')))
            = (split_char "010" p
               ++ flat_map (split_char "010") (p' :: ps'))%list).
    rewrite split_char_app_sep, IH by discriminate. reflexivity.
Qed.

Lemma fold_add_page_lines (pages : list (option string)) :
  forall text L,
    split_char "010" text = (L ++ [EmptyString])%list ->
    split_char "010" (fold_left Utils.add_page pages text)
    = (L ++ flat_map (split_char "010") (page_texts pages)
       ++ [EmptyString])%list.
Proof.
  induction pages as [|[t|] pages IH]; intros text L H;
    cbn [fold_left page_texts Utils.add_page].
  - exact H.
  - destruct (truthy t); [|apply IH, H].
    rewrite (IH (text ++ t ++ nl) (L ++ split_char "010" t)%list).
    + cbn [flat_map]. rewrite <- !app_assoc. reflexivity.
    + rewrite (split_char_app_closed _ _ _ _ H).
      change (t ++ nl) with (t ++ String "010" EmptyString).
      rewrite split_char_app_sep. apply app_assoc.
  - apply IH, H.
Qed.


Lemma join_backslash_n (paragraphs : list string) :
  join "\n" paragraphs
  = match paragraphs with
    | [] => EmptyString
    | p :: ps =>
        p ++ fold_right
               (fun q rest => String "092" (String "n" (q ++ rest)))
               EmptyString ps
    end.
Proof.
  induction paragraphs as [|p ps IH]; [reflexivity|].
  destruct ps as [|q ps'].
  - cbn [join fold_right]. induction p as [|c p IHp]; [reflexivity|].
    cbn [append]. rewrite <- IHp. reflexivity.
  - change (join "\n" (p :: q :: ps'))
      with (p ++ String "092" (String "n" (join "\n" (q :: ps')))).
    rewrite IH. reflexivity.
Qed.

(** X8: in src/suggest_checklist.py the paragraphs of a DOCX file are
    joined by a backslash and the letter n, not by a newline: the extracted
    text is the first paragraph, then each further paragraph after these two
    characters; when no paragraph holds a newline it is one line, and the
    checklist parsed from it has at most one section. *)
Theorem docx_paragraphs_share_one_line
    (docx_paragraph_texts : string -> option (list string))
    (filepath : string) (paragraphs : list string) :
  docx_paragraph_texts filepath = Some paragraphs ->
  Forall (fun p => count_char "010" p = 0) paragraphs ->
  exists text,
    SuggestChecklist.extract_text_from_docx docx_paragraph_texts filepath
    = Some text
    /\ text
       = match paragraphs with
         | [] => EmptyString
         | p :: ps =>
             p ++ fold_right
                    (fun q rest => String "092" (String "n" (q ++ rest)))
                    EmptyString ps
         end
    /\ split_char "010" text = [text]
    /\ List.length (process_checklist_content text) <= 1.
Proof.
  intros Hread Hparas. unfold SuggestChecklist.extract_text_from_docx.
  rewrite Hread. eexists. split; [reflexivity|].
  split; [apply join_backslash_n|].
  assert (H : count_char "010" (join "\n" paragraphs) = 0)
    by (apply count_char_join; [reflexivity | exact Hparas]).
  split; [apply split_char_no_separator, H|].
  apply (single_line_sections _ _ H).
Qed.

(** X9: in src/checksupport/utils.py the paragraphs of a DOCX file are
    joined by newlines: the lines of the extracted text are the lines of the
    paragraphs, in order, when there is a paragraph at all. *)
Theorem utils_docx_lines_are_paragraph_lines
    (docx_paragraph_texts : string -> option (list string))
    (filepath : string) (paragraphs : list string) :
  docx_paragraph_texts filepath = Some paragraphs ->
  paragraphs <> [] ->
  exists text,
    Utils.extract_text_from_docx docx_paragraph_texts filepath = Some text
    /\ split_char "010" text = flat_map (split_char "010") paragraphs.
Proof.
  intros Hread Hne. unfold Utils.extract_text_from_docx. rewrite Hread.
  eexists. split; [reflexivity | apply join_nl_lines, Hne].
Qed.

(** X10: in src/checksupport/utils.py every page of a PDF file that has
    text ends a line: the lines of the extracted text are the lines of those
    pages, in order, followed by one empty line. *)
Theorem utils_pdf_lines_are_page_lines
    (pdf_page_texts : string -> option (list (option string)))
    (filepath : string) (pages : list (option string)) :
  pdf_page_texts filepath = Some pages ->
  exists text,
    Utils.extract_text_from_pdf pdf_page_texts filepath = Some text
    /\ split_char "010" text
       = (flat_map (split_char "010") (page_texts pages)
          ++ [EmptyString])%list.
Proof.
  intros Hread. unfold Utils.extract_text_from_pdf. rewrite Hread.
  eexists. split; [reflexivity|].
  apply (fold_add_page_lines pages EmptyString []). reflexivity.
Qed.



(** X12: [extract_manuscript_text], in both modules, returns a text only
    for a file that exists and whose extension is ".pdf", ".docx" or ".txt"
    up to the case of its letters, and the text is then what the reader of
    that format gives. *)
Theorem extract_manuscript_text_supported
    (splitext_ext : string -> string) (path_exists : string -> bool)
    (pdf_page_texts : string -> option (list (option string)))
    (docx_paragraph_texts : string -> option (list string))
    (txt_contents : string -> option string) (filepath text : string) :
  (SuggestChecklist.extract_manuscript_text splitext_ext path_exists
     pdf_page_texts docx_paragraph_texts txt_contents filepath = Some text ->
   path_exists filepath = true
   /\ ((lower (splitext_ext filepath) = ".pdf"
        /\ SuggestChecklist.extract_text_from_pdf pdf_page_texts filepath
           = Some text)
       \/ (lower (splitext_ext filepath) = ".docx"
           /\ SuggestChecklist.extract_text_from_docx docx_paragraph_texts
                filepath = Some text)
       \/ (lower (splitext_ext filepath) = ".txt"
           /\ txt_contents filepath = Some text)))
  /\ (Utils.extract_manuscript_text splitext_ext path_exists
        pdf_page_texts docx_paragraph_texts txt_contents filepath
      = Some text ->
      path_exists filepath = true
      /\ ((lower (splitext_ext filepath) = ".pdf"
           /\ Utils.extract_text_from_pdf pdf_page_texts filepath
              = Some text)
          \/ (lower (splitext_ext filepath) = ".docx"
              /\ Utils.extract_text_from_docx docx_paragraph_texts filepath
                 = Some text)
          \/ (lower (splitext_ext filepath) = ".txt"
              /\ txt_contents filepath = Some text))).
Proof.
  unfold SuggestChecklist.extract_manuscript_text,
    Utils.extract_manuscript_text,
    SuggestChecklist.extract_text_from_txt, Utils.extract_text_from_txt.
  split; intros H;
    (destruct (path_exists filepath); [|discriminate H]);
    (split; [reflexivity|]); cbn [negb] in H;
    destruct (String.eqb_spec (lower (splitext_ext filepath)) ".pdf")
      as [Epdf|_]; [left | | left |]; try (split; assumption);
    (destruct (String.eqb_spec (lower (splitext_ext filepath)) ".docx")
       as [Edocx|_]; [right; left; split; assumption|]);
    (destruct (String.eqb_spec (lower (splitext_ext filepath)) ".txt")
       as [Etxt|_]; [right; right; split; assumption | discriminate H]).
Qed.

(** ** Guidance resolution and the answers of a run *)

Lemma section_guidance_loop_structure (World : Type)
    (post_generate : Payload -> World -> (Exception + string) * World)
    (payload : Payload) (sections : list ChecklistSection) :
  forall w,
    map section (fst (section_guidance_loop post_generate payload sections w))
    = map section sections
    /\ map items
         (fst (section_guidance_loop post_generate payload sections w))
       = map items sections.
Proof.
  induction sections as [|sec rest IH]; intros w; [split; reflexivity|].
  rewrite section_guidance_loop_cons.
  destruct (post_generate _ w) as [r w1].
  destruct (IH w1) as [Hnames Hitems].
  destruct (section_guidance_loop post_generate payload rest w1)
    as [rest' w2].
  cbn [fst map] in *. rewrite Hnames, Hitems.
  destruct r; split; reflexivity.
Qed.

Lemma preprocess_structure (World : Type)
    (post_generate : Payload -> World -> (Exception + string) * World)
    (sections : list ChecklistSection)
    (manuscript_text ollama_model_name : string) (w : World) :
  map section
    (fst (fst (preprocess_checklist post_generate sections manuscript_text
                 ollama_model_name w)))
  = map section sections
  /\ map items
       (fst (fst (preprocess_checklist post_generate sections
                    manuscript_text ollama_model_name w)))
     = map items sections.
Proof.
  unfold preprocess_checklist, bind.
  destruct (post_generate _ w) as [[exn|response] w1];
    [split; reflexivity|].
  pose proof (section_guidance_loop_structure World post_generate
                (general_payload sections ollama_model_name) sections w1)
    as H.
  destruct (section_guidance_loop post_generate _ sections w1)
    as [sections' w2].
  exact H.
Qed.

(** X13: guidance resolution changes nothing but the guidance: whatever
    the service answers, the sections that come out have the names and the
    items of the sections that went in, in the same order. *)
Theorem preprocess_keeps_names_and_items (World : Type)
    (post_generate : Payload -> World -> (Exception + string) * World)
    (sections : list ChecklistSection)
    (manuscript_text ollama_model_name : string) (w : World) :
  map section
    (fst (fst (preprocess_checklist post_generate sections manuscript_text
                 ollama_model_name w)))
  = map section sections
  /\ map items
       (fst (fst (preprocess_checklist post_generate sections
                    manuscript_text ollama_model_name w)))
     = map items sections.
Proof. apply preprocess_structure. Qed.

Lemma scripted_loop_sent (payload : Payload)
    (sections : list ChecklistSection) :
  forall w,
    Scripted.sent
      (snd (section_guidance_loop Scripted.post_generate payload sections w))
    = (Scripted.sent w
       ++ map (fun sec => set_prompt payload (section_prompt sec)) sections)%list.
Proof.
  induction sections as [|sec rest IH]; intros w.
  - cbn. symmetry. apply app_nil_r.
  - rewrite section_guidance_loop_cons.
    destruct (Scripted.post_generate
                (set_prompt payload (section_prompt sec)) w)
      as [r w1] eqn:E.
    assert (Hsent : Scripted.sent w1
                    = (Scripted.sent w
                       ++ [set_prompt payload (section_prompt sec)])%list).
    { unfold Scripted.post_generate in E.
      destruct (Scripted.script w); injection E as _ E; subst w1;
        reflexivity. }
    specialize (IH w1).
    destruct (section_guidance_loop Scripted.post_generate payload rest w1)
      as [rest' w2].
    cbn [snd map] in *. rewrite IH, Hsent, <- app_assoc. reflexivity.
Qed.

(** X14: with a service that records what it is sent, guidance resolution
    sends the general request and then, when that one succeeded, one request
    per section in the order of the sections, each with the section's
    prompt and the model and options of the general request; a failed
    request for a section does not stop the requests for the next ones. *)
Theorem preprocess_requests (sections : list ChecklistSection)
    (manuscript_text ollama_model_name : string) (w : Scripted.World) :
  Scripted.sent
    (snd (preprocess_checklist Scripted.post_generate sections
            manuscript_text ollama_model_name w))
  = (Scripted.sent w
     ++ general_payload sections ollama_model_name
        :: match Scripted.script w with
           | inr _ :: _ =>
               map (fun sec =>
                      set_prompt (general_payload sections ollama_model_name)
                        (section_prompt sec))
                 sections
           | _ => []
           end)%list.
Proof.
  unfold preprocess_checklist, bind.
  destruct (Scripted.post_generate
              (general_payload sections ollama_model_name) w)
    as [r w1] eqn:E.
  unfold Scripted.post_generate in E.
  destruct (Scripted.script w) as [|[exn|response] script];
    injection E as Er Ew; subst r w1; try reflexivity.
  pose proof (scripted_loop_sent
                (general_payload sections ollama_model_name) sections
                (Scripted.mkWorld script
                   (Scripted.sent w
                    ++ [general_payload sections ollama_model_name])%list))
    as H.
  destruct (section_guidance_loop Scripted.post_generate _ sections _)
    as [sections' w2].
  unfold ret. cbn [snd Scripted.sent] in *.
  rewrite H, <- app_assoc. reflexivity.
Qed.

Lemma all_section_answers_items (World : Type)
    (post_generate : Payload -> World -> (Exception + string) * World)
    (manuscript_text ollama_model_name general_guidance : string)
    (sections : list ChecklistSection) :
  forall w,
    map (map item)
      (fst (all_section_answers post_generate sections manuscript_text
              ollama_model_name general_guidance w))
    = map (fun sec => map item_text_of (items sec)) sections.
Proof.
  induction sections as [|sec rest IH]; intros w; [reflexivity|].
  cbn [all_section_answers]. unfold bind.
  pose proof (section_answers_items World post_generate sec manuscript_text
                ollama_model_name general_guidance w) as Hsec.
  destruct (generate_section_answers post_generate sec manuscript_text
              ollama_model_name general_guidance w) as [answers w1].
  specialize (IH w1).
  destruct (all_section_answers post_generate rest manuscript_text
              ollama_model_name general_guidance w1) as [rest' w2].
  unfold ret. cbn [fst map] in *. rewrite Hsec, IH. reflexivity.
Qed.

(** X15: what [main] hands to [create_pdf] follows the parsed checklist,
    whatever the service does: the processed sections have the names of the
    parsed ones, and there is one list of answers per section, holding one
    record per item of that section, with the item's text, in order. *)
Theorem main_answers_follow_checklist (World : Type)
    (post_generate : Payload -> World -> (Exception + string) * World)
    (sections : list ChecklistSection)
    (manuscript_text ollama_model_name : string) (w : World) :
  let result :=
    fst (main_answers post_generate sections manuscript_text
           ollama_model_name w) in
  map section (fst (fst result)) = map section sections
  /\ map (map item) (snd (fst result))
     = map (fun sec => map item_text_of (items sec)) sections.
Proof.
  unfold main_answers, bind.
  pose proof (preprocess_structure World post_generate sections
                manuscript_text ollama_model_name w) as [Hnames Hitems].
  destruct (preprocess_checklist post_generate sections manuscript_text
              ollama_model_name w) as [[processed general_guidance] w1].
  pose proof (all_section_answers_items World post_generate manuscript_text
                ollama_model_name general_guidance processed w1) as Hans.
  destruct (all_section_answers post_generate processed manuscript_text
              ollama_model_name general_guidance w1) as [answers w2].
  unfold ret. cbn [fst snd] in *. split; [exact Hnames|].
  rewrite Hans, <- !(map_map items (map item_text_of)), Hitems.
  reflexivity.
Qed.

(** ** Answers *)

Lemma cleanup_not_empty (answer : string) : cleanup answer <> "".
Proof.
  unfold cleanup.
  destruct (is_empty answer || startswith (lower answer) "answer:").
  - destruct (strip _) eqn:E; cbn [is_empty]; discriminate.
  - destruct answer; cbn [is_empty]; discriminate.
Qed.

Lemma error_answer_not_empty (exn : Exception) (item_text : string) :
  error_answer exn item_text <> "".
Proof. destruct exn; cbn; discriminate. Qed.

(** X16: the answer of an item is never the empty text, whether the
    service answers, answers with a blank text, or fails. *)
Theorem item_answer_never_empty (World : Type)
    (post_generate : Payload -> World -> (Exception + string) * World)
    (item_text instruction section_guidance general_guidance manuscript_text
       section_text ollama_model_name : string) (w : World) :
  fst (generate_item_answer post_generate item_text instruction
         section_guidance general_guidance manuscript_text section_text
         ollama_model_name w)
  <> "".
Proof.
  unfold generate_item_answer, bind.
  destruct (post_generate _ w) as [[exn|response] w1]; unfold ret; cbn [fst].
  - apply error_answer_not_empty.
  - apply cleanup_not_empty.
Qed.

Lemma lstrip_idempotent (s : string) : lstrip (lstrip s) = lstrip s.
Proof.
  induction s as [|c s IH]; [reflexivity|].
  cbn [lstrip]. destruct (isspace c) eqn:E; [exact IH|].
  cbn [lstrip]. rewrite E. reflexivity.
Qed.

Lemma strip_idempotent (s : string) : strip (strip s) = strip s.
Proof.
  unfold strip. rewrite lstrip_rstrip, lstrip_idempotent.
  apply rstrip_idempotent.
Qed.

Lemma cleanup_trimmed (answer : string) :
  strip answer = answer -> strip (cleanup answer) = cleanup answer.
Proof.
  intros H. unfold cleanup.
  destruct (is_empty answer || startswith (lower answer) "answer:").
  - destruct (is_empty (strip _)); [reflexivity | apply strip_idempotent].
  - destruct (is_empty answer); [reflexivity | exact H].
Qed.

(** X17: an answer that comes from a response of the service has no
    white space at either end. *)
Theorem item_answer_trimmed (World : Type)
    (post_generate : Payload -> World -> (Exception + string) * World)
    (item_text instruction section_guidance general_guidance manuscript_text
       section_text ollama_model_name response : string) (w w1 : World) :
  post_generate
    (item_payload item_text instruction section_guidance manuscript_text
       section_text ollama_model_name) w
  = (inr response, w1) ->
  strip
    (fst (generate_item_answer post_generate item_text instruction
            section_guidance general_guidance manuscript_text section_text
            ollama_model_name w))
  = fst (generate_item_answer post_generate item_text instruction
           section_guidance general_guidance manuscript_text section_text
           ollama_model_name w).
Proof.
  intros H. unfold generate_item_answer, bind. rewrite H.
  unfold ret. cbn [fst]. apply cleanup_trimmed, strip_idempotent.
Qed.

(** ** Prompts *)




(** ** The suggested checklist *)

Lemma startswith_lower_both (keyword : string) :
  forall s, startswith (lower s) (lower keyword) = starts_ci keyword s.
Proof.
  induction keyword as [|a k IH]; intros s.
  - destruct s; reflexivity.
  - destruct s as [|b s]; [reflexivity|].
    cbn [lower startswith starts_ci]. rewrite IH. reflexivity.
Qed.

Lemma contains_lower_both (keyword s : string) :
  contains (lower keyword) (lower s) = contains_ci keyword s.
Proof.
  induction s as [|b s IH].
  - cbn [lower contains contains_ci].
    rewrite <- (startswith_lower_both keyword ""). reflexivity.
  - rewrite contains_unfold. cbn [lower contains_ci].
    rewrite <- IH, <- (startswith_lower_both keyword (String b s)).
    reflexivity.
Qed.

(** The loop stops at the first name that the response mentions. *)
Lemma first_mentioned_spec (checklist_names : list string)
    (response_text name : string) :
  Suggest.first_mentioned checklist_names response_text = Some name ->
  contains_ci name response_text = true
  /\ exists before after,
       checklist_names = (before ++ name :: after)%list
       /\ Forall (fun n => contains_ci n response_text = false) before.
Proof.
  unfold Suggest.first_mentioned.
  induction checklist_names as [|n names IH]; cbn [find]; [discriminate|].
  rewrite contains_lower_both.
  destruct (contains_ci n response_text) eqn:E; intros H.
  - injection H as H. subst n. split; [exact E|].
    exists [], names. split; [reflexivity | constructor].
  - destruct (IH H) as [Hname [before [after [Hnames Hbefore]]]].
    split; [exact Hname|].
    exists (n :: before), after. split.
    + rewrite Hnames. reflexivity.
    + constructor; assumption.
Qed.

Lemma suggest_unfold (World : Type)
    (get_tags : World -> (Exception + list string) * World)
    (post_generate : Payload -> World -> (Exception + string) * World)
    (get_template_names : list string)
    (manuscript_text ollama_model_name : string) (w : World) :
  Suggest.suggest_checklist_with_ollama get_tags post_generate
    get_template_names manuscript_text ollama_model_name w
  = match get_tags w with
    | (inl _, w1) => (None, w1)
    | (inr available_models, w1) =>
        if existsb (String.eqb ollama_model_name) available_models
        then
          match
            post_generate
              (mkPayload ollama_model_name
                 (Utils.get_suggest_prompt manuscript_text get_template_names)
                 false (QArith_base.Qmake 2 10) None) w1
          with
          | (inl _, w2) => (None, w2)
          | (inr response, w2) =>
              (Suggest.first_mentioned get_template_names (strip response),
               w2)
          end
        else (None, w1)
    end.
Proof.
  unfold Suggest.suggest_checklist_with_ollama, Utils.check_model_exists,
    Utils.call_ollama_api, bind, ret.
  destruct (get_tags w) as [[exn|available_models] w1]; [reflexivity|].
  destruct (existsb (String.eqb ollama_model_name) available_models);
    [|reflexivity].
  cbn [negb]. destruct (post_generate _ w1) as [[exn|response] w2];
    reflexivity.
Qed.

(** X20: a checklist that [suggest_checklist_with_ollama] suggests is one
    of the template names, the response mentions it whatever the case of the
    letters, and the response mentions no name that comes before it in the
    list of templates. *)
Theorem suggestion_is_first_mentioned_template (World : Type)
    (get_tags : World -> (Exception + list string) * World)
    (post_generate : Payload -> World -> (Exception + string) * World)
    (get_template_names : list string)
    (manuscript_text ollama_model_name name : string) (w : World) :
  fst (Suggest.suggest_checklist_with_ollama get_tags post_generate
         get_template_names manuscript_text ollama_model_name w)
  = Some name ->
  exists available_models w1 response w2 before after,
    get_tags w = (inr available_models, w1)
    /\ In ollama_model_name available_models
    /\ post_generate
         (mkPayload ollama_model_name
            (Utils.get_suggest_prompt manuscript_text get_template_names)
            false (QArith_base.Qmake 2 10) None) w1
       = (inr response, w2)
    /\ contains_ci name (strip response) = true
    /\ get_template_names = (before ++ name :: after)%list
    /\ Forall (fun n => contains_ci n (strip response) = false) before.
Proof.
  rewrite suggest_unfold.
  destruct (get_tags w) as [[exn|available_models] w1]; [discriminate|].
  destruct (existsb (String.eqb ollama_model_name) available_models) eqn:E;
    [|discriminate].
  destruct (post_generate _ w1) as [[exn|response] w2] eqn:Epost;
    [discriminate|].
  cbn [fst]. intros H.
  destruct (first_mentioned_spec _ _ _ H)
    as [Hname [before [after [Hnames Hbefore]]]].
  exists available_models, w1, response, w2, before, after.
  repeat split; try assumption.
  apply existsb_exists in E. destruct E as [m [Hin Hm]].
  apply String.eqb_eq in Hm. subst m. exact Hin.
Qed.

(** X21: when the list of models cannot be fetched, or does not hold the
    model, [suggest_checklist_with_ollama] suggests nothing and sends no
    request for a suggestion: the service is left as the request for the
    models left it. *)
Theorem no_suggestion_without_model (World : Type)
    (get_tags : World -> (Exception + list string) * World)
    (post_generate : Payload -> World -> (Exception + string) * World)
    (get_template_names : list string)
    (manuscript_text ollama_model_name : string) (w w1 : World)
    (r : Exception + list string) :
  get_tags w = (r, w1) ->
  match r with
  | inl _ => True
  | inr available_models => ~ In ollama_model_name available_models
  end ->
  Suggest.suggest_checklist_with_ollama get_tags post_generate
    get_template_names manuscript_text ollama_model_name w
  = (None, w1).
Proof.
  intros Htags Hr. rewrite suggest_unfold, Htags.
  destruct r as [exn|available_models]; [reflexivity|].
  destruct (existsb (String.eqb ollama_model_name) available_models) eqn:E;
    [|reflexivity].
  exfalso. apply Hr. apply existsb_exists in E. destruct E as [m [Hin Hm]].
  apply String.eqb_eq in Hm. subst m. exact Hin.
Qed.

(** ** The classifier and the case of letters *)

Lemma hash_char_lower (c : ascii) :
  Ascii.eqb (char_lower c) "#" = Ascii.eqb c "#".
Proof. destruct c as [[] [] [] [] [] [] [] []]; reflexivity. Qed.

Lemma count_hash_lower (s : string) :
  count_char "#" (lower s) = count_char "#" s.
Proof.
  induction s as [|c s IH]; [reflexivity|].
  cbn [lower count_char]. rewrite hash_char_lower, IH. reflexivity.
Qed.

Lemma startswith_colons_lower (s : string) :
  startswith (lower s) "::" = startswith s "::".
Proof.
  destruct s as [|a [|b s]]; cbn [lower startswith];
    rewrite <- ?colon_char_lower; try reflexivity.
  rewrite !startswith_empty. reflexivity.
Qed.

Lemma contains_colons_lower (s : string) :
  contains "::" (lower s) = contains "::" s.
Proof.
  induction s as [|c s IH]; [reflexivity|].
  rewrite (contains_unfold "::" (String c s)),
    (contains_unfold "::" (lower (String c s))),
    startswith_colons_lower.
  cbn [lower]. rewrite IH. reflexivity.
Qed.

Lemma lower_idempotent (s : string) : lower (lower s) = lower s.
Proof.
  induction s as [|c s IH]; [reflexivity|].
  cbn [lower]. rewrite IH. f_equal.
  destruct c as [[] [] [] [] [] [] [] []]; reflexivity.
Qed.

Lemma detect_lower (content : string) :
  detect_checklist_type (lower content) = detect_checklist_type content.
Proof.
  unfold detect_checklist_type.
  rewrite lower_idempotent, contains_colons_lower, count_hash_lower.
  reflexivity.
Qed.

(** X22: the detected checklist type does not depend on the case of the
    letters of the text: two texts with the same lower-case form are of the
    same type. *)
Theorem detect_checklist_type_ignores_case (content content' : string) :
  lower content = lower content' ->
  detect_checklist_type content = detect_checklist_type content'.
Proof.
  intros H. rewrite <- (detect_lower content), <- (detect_lower content'), H.
  reflexivity.
Qed.

(** ** The requests of a section *)

Lemma scripted_post_sent (payload : Payload) (w : Scripted.World) :
  Scripted.sent (snd (Scripted.post_generate payload w))
  = (Scripted.sent w ++ [payload])%list.
Proof.
  unfold Scripted.post_generate. destruct (Scripted.script w); reflexivity.
Qed.

Lemma scripted_answer_loop_sent (sec : ChecklistSection)
    (manuscript_text ollama_model_name general_guidance section_text : string)
    (its : list Item) :
  forall w,
    Scripted.sent
      (snd (answer_loop Scripted.post_generate sec manuscript_text
              ollama_model_name general_guidance section_text its w))
    = (Scripted.sent w
       ++ map (fun it =>
                 item_payload (item_text_of it) (instruction_of it)
                   (guidance sec) manuscript_text section_text
                   ollama_model_name)
            its)%list.
Proof.
  induction its as [|it rest IH]; intros w.
  - cbn. symmetry. apply app_nil_r.
  - rewrite answer_loop_cons. unfold generate_item_answer at 1, bind.
    pose proof (scripted_post_sent
                  (item_payload (item_text_of it) (instruction_of it)
                     (guidance sec) manuscript_text section_text
                     ollama_model_name) w) as Hsent.
    destruct (Scripted.post_generate _ w) as [r w1].
    cbn [snd] in Hsent. specialize (IH w1).
    destruct r as [exn|response]; unfold ret;
      destruct (answer_loop Scripted.post_generate sec manuscript_text
                  ollama_model_name general_guidance section_text rest w1)
        as [rest' w2];
      cbn [snd map] in *; rewrite IH, Hsent, <- app_assoc; reflexivity.
Qed.

Lemma scripted_post (payload : Payload) (w : Scripted.World) :
  Scripted.post_generate payload w
  = (match Scripted.script w with
     | [] => inl (ConnectionError "Connection refused")
     | r :: _ => r
     end,
     Scripted.mkWorld (tl (Scripted.script w))
       (Scripted.sent w ++ [payload])%list).
Proof.
  unfold Scripted.post_generate. destruct (Scripted.script w); reflexivity.
Qed.

Lemma scripted_extract_sent (sec : ChecklistSection)
    (manuscript_text ollama_model_name : string) (w : Scripted.World) :
  Scripted.sent
    (snd (extract_section_text Scripted.post_generate sec manuscript_text
            ollama_model_name w))
  = (Scripted.sent w
     ++ extraction_payload sec manuscript_text ollama_model_name
        :: match Scripted.script w with
           | inr response :: _ =>
               if Nat.ltb (String.length (strip response)) 100
                  && Nat.ltb 5000 (String.length manuscript_text)
               then [retry_payload sec manuscript_text ollama_model_name]
               else []
           | _ => []
           end)%list.
Proof.
  unfold extract_section_text, bind. rewrite scripted_post.
  destruct (Scripted.script w) as [|[exn|response] script];
    try reflexivity.
  destruct (Nat.ltb (String.length (strip response)) 100
            && Nat.ltb 5000 (String.length manuscript_text));
    [|reflexivity].
  rewrite scripted_post. cbn [Scripted.script Scripted.sent tl].
  fold (retry_payload sec manuscript_text ollama_model_name).
  destruct script as [|[exn|response'] script]; unfold ret; cbn [snd];
    cbn [Scripted.sent]; rewrite <- app_assoc; reflexivity.
Qed.

(** X23: with a service that records what it is sent, answering a
    section sends the request that extracts the section text, then the
    retry request exactly when the first response succeeded with fewer than
    100 characters, trimmed, for a manuscript of more than 5000, and then
    exactly one request per item of the section, in the order of the items,
    each built from the item's text, its own instruction or the default
    one, the guidance of the section and the section text that
    [extract_section_text] returned. *)
Theorem section_requests (sec : ChecklistSection)
    (manuscript_text ollama_model_name general_guidance : string)
    (w : Scripted.World) :
  let section_text :=
    fst (extract_section_text Scripted.post_generate sec manuscript_text
           ollama_model_name w) in
  let retry :=
    match Scripted.script w with
    | inr response :: _ =>
        if Nat.ltb (String.length (strip response)) 100
           && Nat.ltb 5000 (String.length manuscript_text)
        then [retry_payload sec manuscript_text ollama_model_name]
        else []
    | _ => []
    end in
  Scripted.sent
    (snd (generate_section_answers Scripted.post_generate sec
            manuscript_text ollama_model_name general_guidance w))
  = (Scripted.sent w
     ++ extraction_payload sec manuscript_text ollama_model_name
        :: retry
     ++ map (fun it =>
               item_payload (item_text_of it) (instruction_of it)
                 (guidance sec) manuscript_text section_text
                 ollama_model_name)
          (items sec))%list.
Proof.
  intros section_text retry. subst section_text retry.
  unfold generate_section_answers, bind.
  pose proof (scripted_extract_sent sec manuscript_text ollama_model_name w)
    as Hsent.
  destruct (extract_section_text Scripted.post_generate sec manuscript_text
              ollama_model_name w) as [section_text w1].
  rewrite scripted_answer_loop_sent. cbn [fst snd] in *.
  rewrite Hsent, <- app_assoc. reflexivity.
Qed.

(** ** Section names of a custom checklist *)

(** X24: every section of a custom checklist is named "General" or by
    the prefix of a header line of the text. *)
Theorem custom_sections_are_header_names (content : string) :
  Forall
    (fun s =>
       section s = "General"
       \/ exists raw_line,
            In raw_line (split_char "010" content)
            /\ custom_header_name raw_line = Some (section s))
    (process_custom_checklist content).
Proof.
  set (named := fun name : string =>
         name = "General"
         \/ exists raw_line,
              In raw_line (split_char "010" content)
              /\ custom_header_name raw_line = Some name).
  assert (Hfold :
            let st := fold_left custom_step (split_char "010" content)
                        (mkBuilder [] "General" []) in
            Forall (fun s => named (section s)) (b_sections st)
            /\ named (b_current_section st)).
  { apply (fold_left_invariant_in _ _
             (fun st => Forall (fun s => named (section s)) (b_sections st)
                        /\ named (b_current_section st))).
    - intros st l Hin [Hsecs Hcur].
      destruct (custom_skipped l) eqn:Hskip;
        [rewrite (custom_step_skipped _ _ Hskip); split; assumption|].
      rewrite (custom_step_line _ _ Hskip).
      destruct (custom_header_name l) as [name|] eqn:Hname;
        [|split; assumption].
      assert (Hnew : named name) by (right; exists l; split; assumption).
      destruct (nonempty (b_items st) && truthy (b_current_section st));
        cbn [b_sections b_current_section]; split; try assumption.
      apply Forall_app. split; [exact Hsecs|].
      constructor; [exact Hcur | constructor].
    - split; [constructor | left; reflexivity]. }
  destruct Hfold as [Hsecs Hcur].
  unfold process_custom_checklist, add_last_section.
  destruct (nonempty _); [|exact Hsecs].
  apply Forall_app. split; [exact Hsecs|].
  constructor; [exact Hcur | constructor].
Qed.

(** ** Worked examples for the further properties *)

Lemma docx_paragraphs_share_one_line_witness :
  let reader := fun _ : string => Some ["Methods"; "#1 Study design"] in
  reader "checklist.docx" = Some ["Methods"; "#1 Study design"]
  /\ Forall (fun p => count_char "010" p = 0) ["Methods"; "#1 Study design"]
  /\ exists text,
       SuggestChecklist.extract_text_from_docx reader "checklist.docx"
       = Some text
       /\ text
          = "Methods"
            ++ String "092" (String "n" ("#1 Study design" ++ EmptyString))
       /\ split_char "010" text = [text]
       /\ List.length (process_checklist_content text) <= 1.
Proof.
  intros reader.
  assert (Hread : reader "checklist.docx"
                  = Some ["Methods"; "#1 Study design"]) by reflexivity.
  assert (Hparas : Forall (fun p => count_char "010" p = 0)
                     ["Methods"; "#1 Study design"])
    by (repeat constructor).
  split; [exact Hread|]. split; [exact Hparas|].
  apply (docx_paragraphs_share_one_line reader "checklist.docx"
           ["Methods"; "#1 Study design"] Hread Hparas).
Defined.

Lemma utils_docx_lines_are_paragraph_lines_witness :
  let reader := fun _ : string => Some ["Methods"; "#1 Study design"] in
  reader "checklist.docx" = Some ["Methods"; "#1 Study design"]
  /\ ["Methods"; "#1 Study design"] <> []
  /\ exists text,
       Utils.extract_text_from_docx reader "checklist.docx" = Some text
       /\ split_char "010" text
          = flat_map (split_char "010") ["Methods"; "#1 Study design"].
Proof.
  intros reader.
  assert (Hread : reader "checklist.docx"
                  = Some ["Methods"; "#1 Study design"]) by reflexivity.
  assert (Hne : ["Methods"; "#1 Study design"] <> []) by discriminate.
  split; [exact Hread|]. split; [exact Hne|].
  apply (utils_docx_lines_are_paragraph_lines reader "checklist.docx"
           ["Methods"; "#1 Study design"] Hread Hne).
Defined.

Lemma utils_pdf_lines_are_page_lines_witness :
  let pages := [Some ("Methods" ++ nl ++ "#1 Study design"); None;
                Some ""; Some "Results"] in
  let reader := fun _ : string => Some pages in
  reader "checklist.pdf" = Some pages
  /\ exists text,
       Utils.extract_text_from_pdf reader "checklist.pdf" = Some text
       /\ split_char "010" text
          = (flat_map (split_char "010") (page_texts pages)
             ++ [EmptyString])%list.
Proof.
  intros pages reader.
  assert (Hread : reader "checklist.pdf" = Some pages) by reflexivity.
  split; [exact Hread|].
  apply (utils_pdf_lines_are_page_lines reader "checklist.pdf" pages Hread).
Defined.


Lemma extract_manuscript_text_supported_witness :
  let ext := fun _ : string => ".TXT" in
  let present := fun _ : string => true in
  let pdf := fun _ : string => @None (list (option string)) in
  let docx := fun _ : string => @None (list string) in
  let txt := fun _ : string => Some "A randomized trial." in
  SuggestChecklist.extract_manuscript_text ext present pdf docx txt
    "paper.TXT"
  = Some "A randomized trial."
  /\ present "paper.TXT" = true
  /\ lower (ext "paper.TXT") = ".txt".
Proof.
  intros ext present pdf docx txt.
  assert (H : SuggestChecklist.extract_manuscript_text ext present pdf docx
                txt "paper.TXT" = Some "A randomized trial.")
    by reflexivity.
  split; [exact H|].
  destruct (proj1 (extract_manuscript_text_supported ext present pdf docx
                     txt "paper.TXT" "A randomized trial.") H)
    as [Hpresent _].
  split; [exact Hpresent | reflexivity].
Defined.

Lemma item_answer_trimmed_witness :
  let p :=
    item_payload "3 Outcomes" DEFAULT_INSTRUCTION DEFAULT_GUIDANCE
      "The manuscript." "The results." "llama3" in
  let w := Scripted.start [inr "  Yes, in section 3.  "] in
  Scripted.post_generate p w
  = (inr "  Yes, in section 3.  ", Scripted.mkWorld [] [p])
  /\ strip
       (fst (generate_item_answer Scripted.post_generate "3 Outcomes"
               DEFAULT_INSTRUCTION DEFAULT_GUIDANCE "Read each part in turn."
               "The manuscript." "The results." "llama3" w))
     = fst (generate_item_answer Scripted.post_generate "3 Outcomes"
              DEFAULT_INSTRUCTION DEFAULT_GUIDANCE "Read each part in turn."
              "The manuscript." "The results." "llama3" w).
Proof.
  intros p w.
  assert (Hpost : Scripted.post_generate p w
                  = (inr "  Yes, in section 3.  ", Scripted.mkWorld [] [p]))
    by reflexivity.
  split; [exact Hpost|].
  apply (item_answer_trimmed Scripted.World Scripted.post_generate
           "3 Outcomes" DEFAULT_INSTRUCTION DEFAULT_GUIDANCE
           "Read each part in turn." "The manuscript." "The results."
           "llama3" "  Yes, in section 3.  " w (Scripted.mkWorld [] [p])
           Hpost).
Defined.

Lemma suggestion_is_first_mentioned_template_witness :
  let w :=
    ScriptedTags.mkWorld [inr ["mistral:instruct"]]
      [inr " I suggest prisma, not CONSORT. "] [] in
  fst (Suggest.suggest_checklist_with_ollama ScriptedTags.get_tags
         ScriptedTags.post_generate ["STARD"; "PRISMA"; "CONSORT"]
         "A systematic review." "mistral:instruct" w)
  = Some "PRISMA"
  /\ contains_ci "PRISMA" (strip " I suggest prisma, not CONSORT. ") = true.
Proof.
  intros w.
  assert (H : fst (Suggest.suggest_checklist_with_ollama
                     ScriptedTags.get_tags ScriptedTags.post_generate
                     ["STARD"; "PRISMA"; "CONSORT"] "A systematic review."
                     "mistral:instruct" w)
              = Some "PRISMA") by reflexivity.
  split; [exact H|].
  destruct (suggestion_is_first_mentioned_template ScriptedTags.World
              ScriptedTags.get_tags ScriptedTags.post_generate
              ["STARD"; "PRISMA"; "CONSORT"] "A systematic review."
              "mistral:instruct" "PRISMA" w H)
    as [available [w1 [response [w2 [before [after Hall]]]]]].
  reflexivity.
Defined.

Lemma no_suggestion_without_model_witness :
  let w :=
    ScriptedTags.mkWorld [inr ["llama3"]] [inr "PRISMA"] [] in
  let w1 := ScriptedTags.mkWorld [] [inr "PRISMA"] [] in
  ScriptedTags.get_tags w = (inr ["llama3"], w1)
  /\ ~ In "mistral:instruct" ["llama3"]
  /\ Suggest.suggest_checklist_with_ollama ScriptedTags.get_tags
       ScriptedTags.post_generate ["STARD"; "PRISMA"; "CONSORT"]
       "A systematic review." "mistral:instruct" w
     = (None, w1).
Proof.
  intros w w1.
  assert (Htags : ScriptedTags.get_tags w = (inr ["llama3"], w1))
    by reflexivity.
  assert (Hnot : ~ In "mistral:instruct" ["llama3"]).
  { intros [H|[]]. discriminate H. }
  split; [exact Htags|]. split; [exact Hnot|].
  apply (no_suggestion_without_model ScriptedTags.World
           ScriptedTags.get_tags ScriptedTags.post_generate
           ["STARD"; "PRISMA"; "CONSORT"] "A systematic review."
           "mistral:instruct" w w1 (inr ["llama3"]) Htags Hnot).
Defined.

Lemma detect_checklist_type_ignores_case_witness :
  lower "PRISMA Systematic Review" = lower "prisma systematic review"
  /\ detect_checklist_type "PRISMA Systematic Review"
     = detect_checklist_type "prisma systematic review".
Proof.
  assert (H : lower "PRISMA Systematic Review"
              = lower "prisma systematic review") by reflexivity.
  split; [exact H|].
  apply (detect_checklist_type_ignores_case _ _ H).
Defined.
